(** * iostat await analysis: a shallow embedding of
      [iostat_analysis/detailed_await_analysis.py] and its properties.

    Conventions of the embedding.
    - A Python [str] is a [string]; a character is a code point below 256.
    - A Python [float] is a [pyfloat]: NaN, an infinity, or a finite value
      given by the rational it denotes.  Every finite binary64 number is such
      a rational and Python orders finite floats by that value, so a theorem
      quantified over [pyfloat] covers every float the program can hold.
    - The builtin [float(...)] conversion is a parameter of the development
      ([float : string -> option pyfloat], [None] standing for
      [ValueError]); every theorem holds for every such conversion.
    - [open(...).readlines()] is a file system [fs] giving, for a path, the
      list of lines read or [None] when the file cannot be opened or read.
    - Exceptions that leave a function are the [inl] of a sum. *)

From Stdlib Require Import List String Ascii Bool Arith ZArith QArith Lia Lqa.
From Stdlib Require Import Permutation Sorted.
From Stdlib Require OrdersEx.
Import ListNotations.

Local Open Scope nat_scope.
Local Open Scope string_scope.
Local Open Scope list_scope.

(** ** Python string operations used by the script *)

Module Str.

(** [c.isspace()] for a code point below 256. *)
Definition isspace (c : ascii) : bool :=
  let n := nat_of_ascii c in
  (((9 <=? n) && (n <=? 13)) || ((28 <=? n) && (n <=? 32))
   || (n =? 133) || (n =? 160))%nat.

(** The class [\d] of [re] on a code point below 256. *)
Definition re_digit (c : ascii) : bool :=
  let n := nat_of_ascii c in ((48 <=? n) && (n <=? 57))%nat.

(** [c.isdigit()] for a code point below 256 (the superscripts two, three
    and one are digits for Python). *)
Definition isdigit_char (c : ascii) : bool :=
  let n := nat_of_ascii c in
  (((48 <=? n) && (n <=? 57)) || (n =? 178) || (n =? 179) || (n =? 185))%nat.

Fixpoint all_chars (p : ascii -> bool) (s : string) : bool :=
  match s with
  | EmptyString => true
  | String c s' => p c && all_chars p s'
  end.

(** [s.isdigit()]: at least one character, all of them digits. *)
Definition isdigit (s : string) : bool :=
  match s with
  | EmptyString => false
  | _ => all_chars isdigit_char s
  end.

(** [c in s] for a one-character [c]. *)
Fixpoint contains (c : ascii) (s : string) : bool :=
  match s with
  | EmptyString => false
  | String d s' => Ascii.eqb c d || contains c s'
  end.

Fixpoint lstrip (s : string) : string :=
  match s with
  | EmptyString => EmptyString
  | String c s' => if isspace c then lstrip s' else s
  end.

Fixpoint rstrip (s : string) : string :=
  match s with
  | EmptyString => EmptyString
  | String c s' =>
      match rstrip s' with
      | EmptyString => if isspace c then EmptyString else String c EmptyString
      | r => String c r
      end
  end.

(** [s.strip()] *)
Definition strip (s : string) : string := rstrip (lstrip s).

(** [s.split(sep)] for a one-character separator: never empty. *)
Fixpoint split (sep : ascii) (s : string) : list string :=
  match s with
  | EmptyString => [EmptyString]
  | String c s' =>
      if Ascii.eqb c sep then EmptyString :: split sep s'
      else match split sep s' with
           | [] => [String c EmptyString]
           | h :: t => String c h :: t
           end
  end.

(** [sep.join(l)] *)
Definition join (sep : string) (l : list string) : string :=
  String.concat sep l.

(** [s.split()]: maximal runs of non-whitespace characters. *)
Fixpoint split_ws (s : string) : list string :=
  match s with
  | EmptyString => []
  | String c s' =>
      if isspace c then split_ws s'
      else match s' with
           | EmptyString => [String c EmptyString]
           | String c' _ =>
               if isspace c' then String c EmptyString :: split_ws s'
               else match split_ws s' with
                    | [] => [String c EmptyString]
                    | h :: t => String c h :: t
                    end
           end
  end.

(** [s.startswith(p)] *)
Definition startswith (p s : string) : bool := String.prefix p s.

(** [os.path.basename(p)] on POSIX: what follows the last slash. *)
Definition basename (p : string) : string :=
  last (split "/"%char p) EmptyString.

(** [x in l] for a list of strings. *)
Definition mem (x : string) (l : list string) : bool :=
  existsb (String.eqb x) l.

(** The truth value of a string: non-empty. *)
Definition truthy (s : string) : bool :=
  match s with EmptyString => false | _ => true end.

(** [re.match] of a pattern that is a fixed sequence of character classes:
    the classes must accept the first characters of the text, one each;
    what follows them is not looked at. *)
Fixpoint match_prefix (pat : list (ascii -> bool)) (s : string) : bool :=
  match pat with
  | [] => true
  | p :: pat' =>
      match s with
      | EmptyString => false
      | String c s' => p c && match_prefix pat' s'
      end
  end.

End Str.

(** ** Python floats and their comparisons *)

Inductive pyfloat : Type :=
| FNaN : pyfloat
| FInf (negative : bool) : pyfloat
| FFin (q : Q) : pyfloat.

Module PyFloat.

(** IEEE comparison: [None] when an operand is NaN. *)
Definition fcompare (a b : pyfloat) : option comparison :=
  match a, b with
  | FNaN, _ | _, FNaN => None
  | FInf true, FInf true => Some Eq
  | FInf true, _ => Some Lt
  | _, FInf true => Some Gt
  | FInf false, FInf false => Some Eq
  | FInf false, _ => Some Gt
  | _, FInf false => Some Lt
  | FFin p, FFin q => Some (Qcompare p q)
  end.

(** [a < b] *)
Definition flt (a b : pyfloat) : bool :=
  match fcompare a b with Some Lt => true | _ => false end.

(** [a <= b] *)
Definition fle (a b : pyfloat) : bool :=
  match fcompare a b with Some Lt | Some Eq => true | _ => false end.

(** [a > b] *)
Definition fgt (a b : pyfloat) : bool :=
  match fcompare a b with Some Gt => true | _ => false end.

(** [a >= b] *)
Definition fge (a b : pyfloat) : bool :=
  match fcompare a b with Some Gt | Some Eq => true | _ => false end.

(** [a == b] *)
Definition feq (a b : pyfloat) : bool :=
  match fcompare a b with Some Eq => true | _ => false end.

Definition is_nan (a : pyfloat) : bool :=
  match a with FNaN => true | _ => false end.

(** The builtin [max(a, b)]: the first argument is kept unless the second
    compares greater. *)
Definition max (a b : pyfloat) : pyfloat := if fgt b a then b else a.

(** A numeric literal of the script: an integer seen as a float. *)
Definition of_Z (z : Z) : pyfloat := FFin (inject_Z z).
Arguments of_Z z%_Z.

End PyFloat.

(** ** The builtin sort

    [list.sort] and [sorted] are stable and compare with [<] only.  The
    model is the stable insertion sort; every stable sort returns the same
    list when [<] orders the keys totally.  With [reverse=True] CPython
    reverses the list, sorts it ascending and reverses the result.

    A NaN key is not ordered by [<].  On such keys CPython's result comes
    from its run detection and binary insertion and can differ from the
    insertion sort; it is the same on a list that, reversed, shows no
    adjacent pair with the later key smaller, which both leave as it is.
    What is proved of the order of the sorted entries is proved for keys
    without NaN, or at such a list. *)

Module PySort.
Section Sort.
Context {A : Type} (lt : A -> A -> bool).

Fixpoint insert (x : A) (l : list A) : list A :=
  match l with
  | [] => [x]
  | y :: l' => if lt y x then y :: insert x l' else x :: l
  end.

Definition sort_asc (l : list A) : list A := fold_right insert [] l.

Definition sort_desc (l : list A) : list A := rev (sort_asc (rev l)).
End Sort.
End PySort.

(** ** The data of the script *)

(** The dictionary built at lines 46-57, one per reported line. *)
Record entry : Type := mk_entry {
  filename : string;
  full_filepath : string;
  line_number : nat;
  original_line : string;
  timestamp : string;
  device : string;
  r_await : pyfloat;
  w_await : pyfloat;
  clean_line : string;
  all_parts : list string
}.

(** The exceptions that can leave the functions of the script; [OSError]
    stands for whatever [open] or [readlines] raises. *)
Inductive exn : Type :=
| OSError : exn
| IndexError : exn.

(** The command line, as [argparse] hands it over. *)
Record Args : Type := mk_args {
  args_threshold : pyfloat;
  args_detailed : bool;
  args_limit : option Z;
  args_extreme_only : bool
}.

(** [max(x['r_await'], x['w_await'])], the peak latency of an entry. *)
Definition max_await (e : entry) : pyfloat :=
  PyFloat.max (r_await e) (w_await e).

(** The pattern of line 30:
    [\d{2}/\d{2}/\d{4} \d{2}:\d{2}:\d{2} [APM]{2}]. *)
Definition lit (c : ascii) : ascii -> bool := Ascii.eqb c.

Definition apm (c : ascii) : bool :=
  (Ascii.eqb c "A" || Ascii.eqb c "P" || Ascii.eqb c "M")%char.

Definition timestamp_re : list (ascii -> bool) :=
  let d := Str.re_digit in
  [d; d; lit "/"; d; d; lit "/"; d; d; d; d; lit " ";
   d; d; lit ":"; d; d; lit ":"; d; d; lit " "; apm; apm]%char.

(** Lines 22-27: the line without its [<digits>|] prefix, stripped. *)
Definition clean (line : string) : string :=
  Str.strip
    (if Str.contains "|" line && Str.isdigit (hd "" (Str.split "|" line))
     then Str.join "|" (tl (Str.split "|" line))
     else line).

(** Line 35: a non-empty line that is no table header. *)
Definition is_data_line (clean_line : string) : bool :=
  Str.truthy clean_line
  && negb (Str.startswith "Device" clean_line)
  && negb (Str.startswith "avg-cpu" clean_line).

(** Line 39: enough columns and no kernel banner. *)
Definition is_device_row (parts : list string) : bool :=
  (16 <=? List.length parts)%nat && negb (Str.mem (nth 0 parts "") ["Linux"; ""]).

(** The seven comprehensions of lines 250-256. *)
Record breakdown : Type := mk_breakdown {
  catastrophic : list entry;
  critical : list entry;
  extreme : list entry;
  very_high : list entry;
  severe : list entry;
  medium_high : list entry;
  normal : list entry
}.

Definition in_range (lo : pyfloat) (hi : pyfloat) (e : entry) : bool :=
  PyFloat.fle lo (max_await e) && PyFloat.flt (max_await e) hi.

Definition is_catastrophic (r : entry) : bool :=
  PyFloat.fge (max_await r) (PyFloat.of_Z 5000).
Definition is_critical : entry -> bool :=
  in_range (PyFloat.of_Z 1000) (PyFloat.of_Z 5000).
Definition is_extreme : entry -> bool :=
  in_range (PyFloat.of_Z 500) (PyFloat.of_Z 1000).
Definition is_very_high : entry -> bool :=
  in_range (PyFloat.of_Z 250) (PyFloat.of_Z 500).
Definition is_severe : entry -> bool :=
  in_range (PyFloat.of_Z 200) (PyFloat.of_Z 250).
Definition is_medium_high : entry -> bool :=
  in_range (PyFloat.of_Z 100) (PyFloat.of_Z 200).
Definition is_normal (threshold : pyfloat) : entry -> bool :=
  in_range threshold (PyFloat.of_Z 100).

Definition severity_breakdown (threshold : pyfloat) (all_results : list entry)
  : breakdown :=
  {| catastrophic := filter is_catastrophic all_results;
     critical := filter is_critical all_results;
     extreme := filter is_extreme all_results;
     very_high := filter is_very_high all_results;
     severe := filter is_severe all_results;
     medium_high := filter is_medium_high all_results;
     normal := filter (is_normal threshold) all_results |}.

(** Line 266, [if normal:]: the Slow line is printed for a non-empty list. *)
Definition slow_shown (b : breakdown) : bool :=
  match normal b with [] => false | _ => true end.

(** [l[:n]] for a Python integer [n]. *)
Definition slice_to {A : Type} (l : list A) (n : Z) : list A :=
  if (0 <=? n)%Z then firstn (Z.to_nat n) l
  else firstn (Z.to_nat (Z.of_nat (List.length l) + n)) l.

(** [enumerate(lines)] *)
Definition enumerate {A : Type} (l : list A) : list (nat * A) :=
  combine (seq 0 (List.length l)) l.

(** [entry['filename'].split('-')[1]], lines 103, 184 and 206. *)
Definition server_of (e : entry) : exn + string :=
  match nth_error (Str.split "-" (filename e)) 1 with
  | Some server => inr server
  | None => inl IndexError
  end.

(** The dictionary [by_server], in insertion order. *)
Definition dict : Type := list (string * list entry).

Fixpoint dict_get (server : string) (d : dict) : option (list entry) :=
  match d with
  | [] => None
  | (k, v) :: d' => if String.eqb k server then Some v else dict_get server d'
  end.

(** Lines 185-187: create the list on first sight, then append. *)
Fixpoint dict_append (server : string) (result : entry) (d : dict) : dict :=
  match d with
  | [] => [(server, [result])]
  | (k, v) :: d' =>
      if String.eqb k server then (k, v ++ [result]) :: d'
      else (k, v) :: dict_append server result d'
  end.

(** The loop of lines 183-187. *)
Fixpoint group_by_server (all_results : list entry) (by_server : dict)
  : exn + dict :=
  match all_results with
  | [] => inr by_server
  | result :: rest =>
      match server_of result with
      | inl e => inl e
      | inr server => group_by_server rest (dict_append server result by_server)
      end
  end.

(** The server column of the rows of a table (lines 205-206, 246-247). *)
Fixpoint with_servers (l : list entry) : exn + list (string * entry) :=
  match l with
  | [] => inr []
  | e :: l' =>
      match server_of e with
      | inl x => inl x
      | inr server =>
          match with_servers l' with
          | inl x => inl x
          | inr rows => inr ((server, e) :: rows)
          end
      end
  end.

(** What a completed run has computed. *)
Record report : Type := mk_report {
  rep_threshold : pyfloat;
  rep_all_results : list entry;
  rep_by_server : dict;
  rep_table : list (string * entry);
  rep_detailed : option (list (string * entry));
  rep_breakdown : breakdown;
  rep_slow_shown : bool
}.

Inductive outcome : Type :=
| NoInputFiles : outcome
| NoMatchingRecords : outcome
| Raised (e : exn) : outcome
| Completed (r : report) : outcome.

(** [get_severity_text], lines 83-98: the tier of a peak latency. *)
Inductive tier : Type :=
| CATASTROPHIC | CRITICAL | EXTREME | VERY_HIGH | SEVERE | MEDIUM_HIGH | SLOW.

Definition get_severity_text (max_await : pyfloat) : tier :=
  if PyFloat.fge max_await (PyFloat.of_Z 5000) then CATASTROPHIC
  else if PyFloat.fge max_await (PyFloat.of_Z 1000) then CRITICAL
  else if PyFloat.fge max_await (PyFloat.of_Z 500) then EXTREME
  else if PyFloat.fge max_await (PyFloat.of_Z 250) then VERY_HIGH
  else if PyFloat.fge max_await (PyFloat.of_Z 200) then SEVERE
  else if PyFloat.fge max_await (PyFloat.of_Z 100) then MEDIUM_HIGH
  else SLOW.

(** ** The script *)

Section Script.

(** The builtin [float]: [None] is [ValueError]. *)
Variable float : string -> option pyfloat.

(** The files: the lines [readlines] returns, or [None] when [open] or
    the read raises. *)
Variable fs : string -> option (list string).

(** The body of the loop of lines 17-62, on the state
    [(current_timestamp, high_await_lines)]. *)
Definition loop_body (filepath : string) (threshold : pyfloat)
    (st : string * list entry) (il : nat * string) : string * list entry :=
  let '(current_timestamp, high_await_lines) := st in
  let '(i, line) := il in
  let line_number := i + 1 in
  let original_line := Str.strip line in
  let clean_line := clean line in
  if Str.match_prefix timestamp_re clean_line then
    (clean_line, high_await_lines)
  else if is_data_line clean_line then
    let parts := Str.split_ws clean_line in
    if is_device_row parts then
      match float (nth 9 parts "") with
      | None => st
      | Some r_await =>
          match float (nth 10 parts "") with
          | None => st
          | Some w_await =>
              if PyFloat.fgt r_await threshold
                 || PyFloat.fgt w_await threshold
              then
                (current_timestamp,
                 high_await_lines ++
                 [ {| filename := Str.basename filepath;
                      full_filepath := filepath;
                      line_number := line_number;
                      original_line := original_line;
                      timestamp := current_timestamp;
                      device := nth 0 parts "";
                      r_await := r_await;
                      w_await := w_await;
                      clean_line := clean_line;
                      all_parts := parts |} ])
              else st
          end
      end
    else st
  else st.

(** The loop over [enumerate(lines)] from the initial state of lines
    13-14. *)
Definition scan_lines (filepath : string) (threshold : pyfloat)
    (lines : list string) : list entry :=
  snd (fold_left (loop_body filepath threshold) (enumerate lines) ("", [])).

Definition check_high_await_times (filepath : string) (threshold : pyfloat)
  : exn + list entry :=
  match fs filepath with
  | None => inl OSError
  | Some lines => inr (scan_lines filepath threshold lines)
  end.

(** The loop of lines 166-169. *)
Fixpoint process_files (threshold : pyfloat) (files : list string)
    (all_results : list entry) : exn + list entry :=
  match files with
  | [] => inr all_results
  | filepath :: rest =>
      match check_high_await_times filepath threshold with
      | inl e => inl e
      | inr results => process_files threshold rest (all_results ++ results)
      end
  end.

(** Lines 149-150: the threshold in force. *)
Definition effective_threshold (a : Args) : pyfloat :=
  if args_extreme_only a then PyFloat.of_Z 1000 else args_threshold a.

(** Line 203: [args.limit if args.limit else len(all_results)]. *)
Definition display_limit (a : Args) (all_results : list entry) : Z :=
  match args_limit a with
  | Some n => if (n =? 0)%Z then Z.of_nat (List.length all_results) else n
  | None => Z.of_nat (List.length all_results)
  end.

(** Line 176. *)
Definition sort_results (all_results : list entry) : list entry :=
  PySort.sort_desc
    (fun x y => PyFloat.flt (max_await x) (max_await y)) all_results.

(** [main], with the files [glob] found as an argument.  The prints are
    left out; the summary of lines 189-195 only reads [by_server], whose
    lists are never empty, and raises nothing. *)
Definition main (a : Args) (iostat_files : list string) : outcome :=
  let threshold := effective_threshold a in
  match iostat_files with
  | [] => NoInputFiles
  | _ =>
      match process_files threshold
              (PySort.sort_asc String.ltb iostat_files) [] with
      | inl e => Raised e
      | inr [] => NoMatchingRecords
      | inr unsorted =>
          let all_results := sort_results unsorted in
          match group_by_server all_results [] with
          | inl e => Raised e
          | inr by_server =>
              let display_limit := display_limit a all_results in
              match with_servers (slice_to all_results display_limit) with
              | inl e => Raised e
              | inr table =>
                  let entries_to_show :=
                    if (display_limit =? 0)%Z then all_results
                    else slice_to all_results display_limit in
                  let shown :=
                    if args_detailed a then
                      match with_servers entries_to_show with
                      | inl e => inl e
                      | inr rows => inr (Some rows)
                      end
                    else inr None in
                  match shown with
                  | inl e => Raised e
                  | inr detailed =>
                      let b := severity_breakdown threshold all_results in
                      Completed
                        {| rep_threshold := threshold;
                           rep_all_results := all_results;
                           rep_by_server := by_server;
                           rep_table := table;
                           rep_detailed := detailed;
                           rep_breakdown := b;
                           rep_slow_shown := slow_shown b |}
                  end
              end
          end
      end
  end.

(** *** The loop, line by line

    The loop body splits into what it does to the carried timestamp and
    what it appends; [loop_body_eq] below shows the split is exact. *)

Definition next_timestamp (current_timestamp line : string) : string :=
  if Str.match_prefix timestamp_re (clean line) then clean line
  else current_timestamp.

(** The entry of lines 46-57 for a device row whose two awaits parse,
    before the test of line 45. *)
Definition candidate (filepath current_timestamp : string) (i : nat)
    (line : string) : option entry :=
  let parts := Str.split_ws (clean line) in
  if negb (Str.match_prefix timestamp_re (clean line))
     && is_data_line (clean line) && is_device_row parts
  then
    match float (nth 9 parts ""), float (nth 10 parts "") with
    | Some r, Some w =>
        Some {| filename := Str.basename filepath;
                full_filepath := filepath;
                line_number := i + 1;
                original_line := Str.strip line;
                timestamp := current_timestamp;
                device := nth 0 parts "";
                r_await := r;
                w_await := w;
                clean_line := clean line;
                all_parts := parts |}
    | _, _ => None
    end
  else None.

(** The test of line 45. *)
Definition exceeds (threshold : pyfloat) (e : entry) : bool :=
  PyFloat.fgt (r_await e) threshold || PyFloat.fgt (w_await e) threshold.

Definition emitted (filepath : string) (threshold : pyfloat)
    (current_timestamp : string) (i : nat) (line : string) : list entry :=
  match candidate filepath current_timestamp i line with
  | Some e => if exceeds threshold e then [e] else []
  | None => []
  end.

Definition carried (current_timestamp : string) (lines : list string)
  : string :=
  fold_left next_timestamp lines current_timestamp.

Fixpoint records_from (filepath : string) (threshold : pyfloat)
    (current_timestamp : string) (i : nat) (lines : list string)
  : list entry :=
  match lines with
  | [] => []
  | line :: rest =>
      emitted filepath threshold current_timestamp i line
      ++ records_from filepath threshold
           (next_timestamp current_timestamp line) (S i) rest
  end.

End Script.

(** ** Concrete inputs for the examples

    [float_plain] is [float] on the spellings the examples use: an optional
    sign followed by [nan], [inf], [infinity] (in any case) or by decimal
    digits with an optional fraction.  It returns the exact decimal value,
    which is what Python returns whenever that value is a binary64 number,
    as it is for every token below. *)

Module Sample.

Fixpoint digits_value (s : string) (acc : Z) : option Z :=
  match s with
  | EmptyString => Some acc
  | String c s' =>
      let n := nat_of_ascii c in
      if ((48 <=? n) && (n <=? 57))%nat
      then digits_value s' (10 * acc + Z.of_nat (n - 48))%Z
      else None
  end.

Definition lower_char (c : ascii) : ascii :=
  let n := nat_of_ascii c in
  if ((65 <=? n) && (n <=? 90))%nat then ascii_of_nat (n + 32) else c.

Fixpoint lower (s : string) : string :=
  match s with
  | EmptyString => EmptyString
  | String c s' => String (lower_char c) (lower s')
  end.

Fixpoint pow10 (n : nat) : positive :=
  match n with
  | O => 1%positive
  | S n' => (10 * pow10 n')%positive
  end.

Definition decimal (neg : bool) (ip fp : string) : option pyfloat :=
  match ip, fp with
  | EmptyString, EmptyString => None
  | _, _ =>
      match digits_value ip 0, digits_value fp 0 with
      | Some a, Some b =>
          let scale := pow10 (String.length fp) in
          let n := (a * Z.pos scale + b)%Z in
          Some (FFin (Qmake (if neg then - n else n) scale))
      | _, _ => None
      end
  end.

Definition float_plain (s : string) : option pyfloat :=
  let '(neg, body) :=
    match s with
    | String "-" b => (true, b)
    | String "+" b => (false, b)
    | _ => (false, s)
    end in
  if String.eqb (lower body) "nan" then Some FNaN
  else if String.eqb (lower body) "inf" || String.eqb (lower body) "infinity"
  then Some (FInf neg)
  else match Str.split "." body with
       | [ip] => decimal neg ip EmptyString
       | [ip; fp] => decimal neg ip fp
       | _ => None
       end.

End Sample.

Module Inputs.

Local Open Scope string_scope.

Definition nl : string := String (ascii_of_nat 10) EmptyString.

(** A device row of sixteen columns with the given device and awaits. *)
Definition row (dev r w : string) : string :=
  dev ++ " 1.0 2.0 3.0 4.0 0.0 0.0 0.0 0.0 " ++ r ++ " " ++ w
      ++ " 0.5 4.0 4.0 0.1 20.0" ++ nl.

(** A file system holding the listed files and no other. *)
Fixpoint fs_of (files : list (string * list string)) (p : string)
  : option (list string) :=
  match files with
  | [] => None
  | (q, lines) :: rest => if String.eqb q p then Some lines else fs_of rest p
  end.

Definition t100 : pyfloat := PyFloat.of_Z 100.
Definition t200 : pyfloat := PyFloat.of_Z 200.

Definition args_of (threshold : pyfloat) (limit : option Z) : Args :=
  {| args_threshold := threshold; args_detailed := false;
     args_limit := limit; args_extreme_only := false |}.

(** One host: a timestamp, a row above 100 and a row whose read await is
    NaN and whose write await is 300. *)
Definition host1 : string := "iostat-10.0.0.1-a.output".
Definition host1_lines : list string :=
  ["07/01/2024 03:00:00 PM" ++ nl; row "sda" "150.5" "12.0";
   row "sdb" "nan" "300"].
Definition fs1 : string -> option (list string) :=
  fs_of [(host1, host1_lines)].

(** One host: peaks 300, NaN (write await 150) and 500. *)
Definition host3_lines : list string :=
  [row "sda" "300" "1.0"; row "sdb" "nan" "150"; row "sdc" "500" "1.0"].
Definition fs3 : string -> option (list string) :=
  fs_of [(host1, host3_lines)].

(** Two hosts; the file of the first cannot be read. *)
Definition host2 : string := "iostat-10.0.0.2-b.output".
Definition fs2 : string -> option (list string) :=
  fs_of [(host2, [row "sda" "6000" "1.0"])].


(** A file with a row of ten columns and a row with a non-numeric await
    between two good rows. *)
Definition short_lines : list string :=
  [row "sda" "300" "1.0"; "sdb 1.0 2.0 3.0 4.0 0.0 0.0 0.0 0.0 900.0" ++ nl;
   row "sdc" "n/a" "700"; row "sdd" "400" "1.0"].
Definition fs_short : string -> option (list string) :=
  fs_of [(host1, short_lines)].

(** What the extractor returns for [host1] at threshold 100. *)
Definition host1_results : list entry :=
  scan_lines Sample.float_plain host1 t100 host1_lines.

End Inputs.

(** ** Notions the statements use *)

(** The timestamp pattern in the words of the specification,
    [MM/DD/YYYY HH:MM:SS AM|PM], read like the code's at the start of the
    text: the digits and separators, then [AM] or [PM]. *)
Definition spec_timestamp_re : list (ascii -> bool) :=
  let d := Str.re_digit in
  [d; d; lit "/"; d; d; lit "/"; d; d; d; d; lit " ";
   d; d; lit ":"; d; d; lit ":"; d; d; lit " ";
   (fun c => Ascii.eqb c "A" || Ascii.eqb c "P"); lit "M"]%char.

(** The order a float key gives to the elements of a list: the comparison
    the sort is run with, its reflexive version, and the elements whose key
    is not NaN. *)
Definition key_lt {A : Type} (key : A -> pyfloat) (x y : A) : bool :=
  PyFloat.flt (key x) (key y).
Definition key_le {A : Type} (key : A -> pyfloat) (x y : A) : Prop :=
  PyFloat.fle (key x) (key y) = true.
Definition key_ordered {A : Type} (key : A -> pyfloat) (x : A) : Prop :=
  PyFloat.is_nan (key x) = false.


(** The seven tests of lines 250-256 on one entry, in the order of the
    report. *)
Definition tier_tests (threshold : pyfloat) (r : entry) : list bool :=
  [is_catastrophic r; is_critical r; is_extreme r; is_very_high r;
   is_severe r; is_medium_high r; is_normal threshold r].

(** The seven counts of lines 260-267. *)
Definition bucket_sizes (b : breakdown) : list nat :=
  map (@List.length entry)
    [catastrophic b; critical b; extreme b; very_high b; severe b;
     medium_high b; normal b].

Definition count_true (l : list bool) : nat :=
  List.length (filter (fun b => b) l).

(** Descending order of the peaks, in the weakest reading: no entry is
    followed, at any distance, by one of a greater peak. *)
Definition never_ascending (l : list entry) : Prop :=
  StronglySorted
    (fun x y => PyFloat.flt (max_await x) (max_await y) = false) l.

(** Descending order of the peaks, each entry at least what follows. *)
Definition descending (l : list entry) : Prop :=
  StronglySorted
    (fun x y => PyFloat.fge (max_await x) (max_await y) = true) l.

(** The entries of a list that share the peak of [k], in their order. *)
Definition same_peak (k : pyfloat) (l : list entry) : list entry :=
  filter (fun r => PyFloat.feq (max_await r) k) l.

(** ** The rest of the report

    The parts of the script that only read the sorted entries: the emoji
    and colour ladders, the summary by server, the rows of the table and
    the detailed view. *)

(** [get_severity_emoji], lines 66-81. *)
Inductive emoji : Type :=
| SKULL | FIRE | WARNING | RED_CIRCLE | ORANGE_CIRCLE | YELLOW_CIRCLE
| BROWN_CIRCLE.

Definition get_severity_emoji (max_await : pyfloat) : emoji :=
  if PyFloat.fge max_await (PyFloat.of_Z 5000) then SKULL
  else if PyFloat.fge max_await (PyFloat.of_Z 1000) then FIRE
  else if PyFloat.fge max_await (PyFloat.of_Z 500) then WARNING
  else if PyFloat.fge max_await (PyFloat.of_Z 250) then RED_CIRCLE
  else if PyFloat.fge max_await (PyFloat.of_Z 200) then ORANGE_CIRCLE
  else if PyFloat.fge max_await (PyFloat.of_Z 100) then YELLOW_CIRCLE
  else BROWN_CIRCLE.

(** The colour of the maximum in a table row, lines 211-224. *)
Inductive style : Type :=
| BOLD_RED | RED | YELLOW | MAGENTA | ORANGE | PLAIN.

Definition max_color (max_await : pyfloat) : style :=
  if PyFloat.fge max_await (PyFloat.of_Z 5000) then BOLD_RED
  else if PyFloat.fge max_await (PyFloat.of_Z 1000) then RED
  else if PyFloat.fge max_await (PyFloat.of_Z 500) then YELLOW
  else if PyFloat.fge max_await (PyFloat.of_Z 250) then MAGENTA
  else if PyFloat.fge max_await (PyFloat.of_Z 200) then ORANGE
  else if PyFloat.fge max_await (PyFloat.of_Z 100) then ORANGE
  else PLAIN.

(** The position of a tier on the ladder, SLOW lowest. *)
Definition tier_rank (t : tier) : nat :=
  match t with
  | SLOW => 0 | MEDIUM_HIGH => 1 | SEVERE => 2 | VERY_HIGH => 3
  | EXTREME => 4 | CRITICAL => 5 | CATASTROPHIC => 6
  end.

(** The emoji printed beside each tier. *)
Definition emoji_of_tier (t : tier) : emoji :=
  match t with
  | CATASTROPHIC => SKULL | CRITICAL => FIRE | EXTREME => WARNING
  | VERY_HIGH => RED_CIRCLE | SEVERE => ORANGE_CIRCLE
  | MEDIUM_HIGH => YELLOW_CIRCLE | SLOW => BROWN_CIRCLE
  end.

(** The builtin [max] of a list: the first item is kept until a later one
    compares greater; [None] is the [ValueError] of an empty list. *)
Fixpoint max_from (best : pyfloat) (l : list pyfloat) : pyfloat :=
  match l with
  | [] => best
  | x :: l' => max_from (if PyFloat.fgt x best then x else best) l'
  end.

Definition py_max (l : list pyfloat) : option pyfloat :=
  match l with
  | [] => None
  | x :: l' => Some (max_from x l')
  end.

(** One line of the summary by server, lines 191-195. *)
Record server_line : Type := mk_server_line {
  sl_server : string;
  sl_entries : nat;
  sl_max_await : pyfloat;
  sl_emoji : emoji;
  sl_severity : tier
}.

Fixpoint server_lines (items : list (string * list entry))
  : option (list server_line) :=
  match items with
  | [] => Some []
  | (server, entries) :: rest =>
      match py_max (map max_await entries) with
      | None => None
      | Some m =>
          match server_lines rest with
          | None => None
          | Some lines =>
              Some ({| sl_server := server;
                       sl_entries := List.length entries;
                       sl_max_await := m;
                       sl_emoji := get_severity_emoji m;
                       sl_severity := get_severity_text m |} :: lines)
          end
      end
  end.

(** The loop over [sorted(by_server.items())].  The items are pairs and
    Python orders pairs by their first components when these differ; the
    keys of a dictionary differ, so the lists are never compared. *)
Definition summary_by_server (by_server : dict) : option (list server_line) :=
  server_lines
    (PySort.sort_asc (fun x y => String.ltb (fst x) (fst y)) by_server).

(** One row of the table, lines 205-239: the red marks follow lines 227
    and 233. *)
Record table_row : Type := mk_table_row {
  row_number : nat;
  row_emoji : emoji;
  row_server : string;
  row_entry : entry;
  row_max_await : pyfloat;
  row_max_color : style;
  row_r_red : bool;
  row_w_red : bool
}.

Definition table_row_of (i : nat) (result : entry) : exn + table_row :=
  match server_of result with
  | inl e => inl e
  | inr server =>
      let max_await := max_await result in
      inr {| row_number := i + 1;
             row_emoji := get_severity_emoji max_await;
             row_server := server;
             row_entry := result;
             row_max_await := max_await;
             row_max_color := max_color max_await;
             row_r_red :=
               PyFloat.feq (r_await result) max_await
               && PyFloat.fge (r_await result) (PyFloat.of_Z 100);
             row_w_red :=
               PyFloat.feq (w_await result) max_await
               && PyFloat.fge (w_await result) (PyFloat.of_Z 100) |}
  end.

Fixpoint table_rows (i : nat) (l : list entry) : exn + list table_row :=
  match l with
  | [] => inr []
  | result :: rest =>
      match table_row_of i result with
      | inl e => inl e
      | inr row =>
          match table_rows (S i) rest with
          | inl e => inl e
          | inr rows => inr (row :: rows)
          end
      end
  end.

(** [print_detailed_entry], lines 100-132. *)
Inductive marker : Type := NO_MARKER | HIGH_READ | HIGH_WRITE.

(** What can leave [print_detailed_entry]: the index of line 103 and the
    conversions of lines 126 and 128. *)
Inductive detail_exn : Type := DetailIndexError | DetailValueError.

Definition headers : list string :=
  ["Device"; "r/s"; "w/s"; "rkB/s"; "wkB/s"; "rrqm/s"; "wrqm/s"; "%rrqm";
   "%wrqm"; "r_await"; "w_await"; "aqu-sz"; "rareq-sz"; "wareq-sz"; "svctm";
   "%util"].

Record detail : Type := mk_detail {
  d_number : nat;
  d_server : string;
  d_emoji : emoji;
  d_severity : tier;
  d_max_await : pyfloat;
  d_fields : list (nat * string * string * marker)
}.

Section Detail.

Variable float : string -> option pyfloat.

(** [header == name and float(value) > 100]: the conversion runs only for
    the named header. *)
Definition high (name header value : string) : option bool :=
  if String.eqb header name then
    match float value with
    | None => None
    | Some v => Some (PyFloat.fgt v (PyFloat.of_Z 100))
    end
  else Some false.

(** Lines 126-131. *)
Definition field_marker (header value : string) : detail_exn + marker :=
  match high "r_await" header value with
  | None => inl DetailValueError
  | Some true => inr HIGH_READ
  | Some false =>
      match high "w_await" header value with
      | None => inl DetailValueError
      | Some true => inr HIGH_WRITE
      | Some false => inr NO_MARKER
      end
  end.

(** The loop of lines 125-132 over [enumerate(zip(headers, all_parts))]. *)
Fixpoint field_lines (rows : list (nat * (string * string)))
  : detail_exn + list (nat * string * string * marker) :=
  match rows with
  | [] => inr []
  | (i, (header, value)) :: rest =>
      match field_marker header value with
      | inl e => inl e
      | inr m =>
          match field_lines rest with
          | inl e => inl e
          | inr lines => inr ((i, header, value, m) :: lines)
          end
      end
  end.

Definition print_detailed_entry (e : entry) (index : nat)
  : detail_exn + detail :=
  let max_await := max_await e in
  match nth_error (Str.split "-" (filename e)) 1 with
  | None => inl DetailIndexError
  | Some server =>
      match field_lines (enumerate (combine headers (all_parts e))) with
      | inl x => inl x
      | inr fields =>
          inr {| d_number := index + 1;
                 d_server := server;
                 d_emoji := get_severity_emoji max_await;
                 d_severity := get_severity_text max_await;
                 d_max_await := max_await;
                 d_fields := fields |}
      end
  end.

End Detail.

(** The entries of a list that belong to a server. *)
Definition has_server (server : string) (r : entry) : bool :=
  match server_of r with
  | inr s => String.eqb s server
  | inl _ => false
  end.

(** The servers of a list of entries in order of first appearance. *)
Fixpoint first_seen (seen : list string) (l : list entry) : list string :=
  match l with
  | [] => []
  | r :: rest =>
      match server_of r with
      | inr s =>
          if Str.mem s seen then first_seen seen rest
          else s :: first_seen (s :: seen) rest
      | inl _ => first_seen seen rest
      end
  end.

(** A token of [split()]: not empty and free of whitespace. *)
Definition is_token (s : string) : Prop :=
  s <> "" /\ Str.all_chars (fun c => negb (Str.isspace c)) s = true.

(** The list of the breakdown that belongs to a tier. *)
Definition bucket_of_tier (b : breakdown) (t : tier) : list entry :=
  match t with
  | CATASTROPHIC => catastrophic b
  | CRITICAL => critical b
  | EXTREME => extreme b
  | VERY_HIGH => very_high b
  | SEVERE => severe b
  | MEDIUM_HIGH => medium_high b
  | SLOW => normal b
  end.

(** What the extractor returns for a file, nothing when it is unreadable. *)
Definition entries_of (float : string -> option pyfloat)
    (fs : string -> option (list string)) (threshold : pyfloat)
    (filepath : string) : list entry :=
  match fs filepath with
  | Some lines => scan_lines float filepath threshold lines
  | None => []
  end.

(** The marker lines 126-131 give to field [i] of an entry whose awaits are
    the conversions of its fields 9 and 10. *)
Definition marker_at (e : entry) (i : nat) : marker :=
  if (i =? 9)%nat then
    if PyFloat.fgt (r_await e) (PyFloat.of_Z 100) then HIGH_READ
    else NO_MARKER
  else if (i =? 10)%nat then
    if PyFloat.fgt (w_await e) (PyFloat.of_Z 100) then HIGH_WRITE
    else NO_MARKER
  else NO_MARKER.

(** The test of lines 250-256 that fills the list of a tier. *)
Definition tier_test (threshold : pyfloat) (t : tier) : entry -> bool :=
  match t with
  | CATASTROPHIC => is_catastrophic
  | CRITICAL => is_critical
  | EXTREME => is_extreme
  | VERY_HIGH => is_very_high
  | SEVERE => is_severe
  | MEDIUM_HIGH => is_medium_high
  | SLOW => is_normal threshold
  end.

(** * Properties *)

Module FloatFacts.
Import PyFloat.

Lemma Qcompare_spec' (p q : Q) :
  match Qcompare p q with
  | Lt => (p < q)%Q
  | Eq => (p == q)%Q
  | Gt => (q < p)%Q
  end.
Proof.
  destruct (Qcompare p q) eqn:E.
  - now apply Qeq_alt.
  - now apply Qlt_alt.
  - now apply Qgt_alt.
Qed.

Ltac qcases :=
  repeat match goal with
  | H : context [Qcompare ?p ?q] |- _ =>
      let E := fresh "E" in
      pose proof (Qcompare_spec' p q) as E; destruct (Qcompare p q)
  | |- context [Qcompare ?p ?q] =>
      let E := fresh "E" in
      pose proof (Qcompare_spec' p q) as E; destruct (Qcompare p q)
  end.

Ltac fsolve :=
  unfold max, fgt, fge, flt, fle, feq, is_nan, fcompare in *;
  repeat match goal with
  | x : pyfloat |- _ => destruct x as [| [|] |]
  end;
  simpl in *; try reflexivity; try discriminate; try tauto;
  qcases; simpl in *; try reflexivity; try discriminate; try tauto;
  try (exfalso; lra).

Lemma fgt_flt a b : fgt a b = flt b a.
Proof. fsolve. Qed.

Lemma fge_fle a b : fge a b = fle b a.
Proof. fsolve. Qed.

Lemma fgt_fle a b : fgt a b = true -> fle b a = true.
Proof. fsolve. Qed.

Lemma fgt_not_nan a b : fgt a b = true -> is_nan a = false /\ is_nan b = false.
Proof. fsolve. Qed.

Lemma fgt_weaken t1 t2 x : fle t1 t2 = true -> fgt x t2 = true -> fgt x t1 = true.
Proof. fsolve. Qed.

Lemma flt_false_fle a b :
  is_nan a = false -> is_nan b = false -> flt a b = false -> fle b a = true.
Proof. fsolve. Qed.

Lemma fle_flt_false a b : fle b a = true -> flt a b = false.
Proof. fsolve. Qed.

Lemma fle_trans a b c : fle a b = true -> fle b c = true -> fle a c = true.
Proof. fsolve. Qed.

Lemma flt_fle_trans a b c : flt a b = true -> fle b c = true -> flt a c = true.
Proof. fsolve. Qed.

Lemma flt_irrefl_eq a b : flt a b = true -> feq a b = false.
Proof. fsolve. Qed.

Lemma feq_trans_l a b k : feq a k = true -> feq b k = true -> flt a b = false.
Proof. fsolve. Qed.

Lemma max_nan r w : is_nan (max r w) = is_nan r.
Proof. fsolve. Qed.

Lemma max_exceeds r w t :
  is_nan r = false ->
  fgt (max r w) t = fgt r t || fgt w t.
Proof. fsolve. Qed.

Lemma max_exceeds_inv r w t :
  fgt (max r w) t = true -> fgt r t || fgt w t = true.
Proof. fsolve. Qed.

End FloatFacts.

Section LoopFacts.
Variable float : string -> option pyfloat.
Variables (filepath : string) (threshold : pyfloat).

Lemma loop_body_eq ts acc i line :
  loop_body float filepath threshold (ts, acc) (i, line)
  = (next_timestamp ts line,
     acc ++ emitted float filepath threshold ts i line).
Proof.
  unfold loop_body, next_timestamp, emitted, candidate, exceeds.
  destruct (Str.match_prefix timestamp_re (clean line)); simpl.
  - now rewrite app_nil_r.
  - destruct (is_data_line (clean line)); simpl;
      [| now rewrite app_nil_r].
    destruct (is_device_row (Str.split_ws (clean line))); simpl;
      [| now rewrite app_nil_r].
    destruct (float (nth 9 (Str.split_ws (clean line)) ""));
      [| now rewrite app_nil_r].
    destruct (float (nth 10 (Str.split_ws (clean line)) ""));
      [| now rewrite app_nil_r].
    simpl.
    destruct (PyFloat.fgt p threshold || PyFloat.fgt p0 threshold);
      [reflexivity | now rewrite app_nil_r].
Qed.

Lemma fold_loop lines : forall i ts acc,
  fold_left (loop_body float filepath threshold)
    (combine (seq i (List.length lines)) lines) (ts, acc)
  = (carried ts lines,
     acc ++ records_from float filepath threshold ts i lines).
Proof.
  induction lines as [| line rest IH]; intros i ts acc;
    cbn [List.length seq combine fold_left records_from].
  - now rewrite app_nil_r.
  - rewrite loop_body_eq, IH. unfold carried; cbn [fold_left].
    now rewrite app_assoc.
Qed.

Lemma scan_lines_eq lines :
  scan_lines float filepath threshold lines
  = records_from float filepath threshold "" 0 lines.
Proof.
  unfold scan_lines, enumerate. now rewrite fold_loop.
Qed.

Lemma carried_app ts pre post :
  carried ts (pre ++ post) = carried (carried ts pre) post.
Proof. unfold carried. apply fold_left_app. Qed.

Lemma records_from_app pre : forall ts i post,
  records_from float filepath threshold ts i (pre ++ post)
  = records_from float filepath threshold ts i pre
    ++ records_from float filepath threshold (carried ts pre)
         (i + List.length pre) post.
Proof.
  induction pre as [| line rest IH]; intros ts i post;
    cbn [records_from app List.length].
  - now rewrite Nat.add_0_r.
  - rewrite IH, <- app_assoc. unfold carried; cbn [fold_left].
    do 3 f_equal. lia.
Qed.

Lemma candidate_fields ts i line r :
  candidate float filepath ts i line = Some r ->
  line_number r = i + 1 /\ timestamp r = ts
  /\ full_filepath r = filepath /\ filename r = Str.basename filepath
  /\ Str.match_prefix timestamp_re (clean line) = false
  /\ (16 <= List.length (Str.split_ws (clean line)))
  /\ float (nth 9 (Str.split_ws (clean line)) "") = Some (r_await r)
  /\ float (nth 10 (Str.split_ws (clean line)) "") = Some (w_await r).
Proof.
  unfold candidate.
  destruct (Str.match_prefix timestamp_re (clean line)); simpl;
    [discriminate |].
  destruct (is_data_line (clean line)); simpl; [| discriminate].
  destruct (is_device_row (Str.split_ws (clean line))) eqn:Hrow; simpl;
    [| discriminate].
  destruct (float (nth 9 (Str.split_ws (clean line)) "")); [| discriminate].
  destruct (float (nth 10 (Str.split_ws (clean line)) ""));
    [| discriminate].
  intros [= <-]; simpl. repeat split; try reflexivity.
  unfold is_device_row in Hrow. apply andb_true_iff in Hrow.
  destruct Hrow as [Hlen _]. now apply Nat.leb_le in Hlen.
Qed.

Lemma emitted_In ts i line r :
  In r (emitted float filepath threshold ts i line) ->
  candidate float filepath ts i line = Some r /\ exceeds threshold r = true.
Proof.
  unfold emitted.
  destruct (candidate float filepath ts i line) as [e |]; [| intros []].
  destruct (exceeds threshold e) eqn:He; [| intros []].
  intros [<- | []]. now split.
Qed.

Lemma records_from_In lines : forall ts i r,
  In r (records_from float filepath threshold ts i lines) ->
  exists pre line post,
    lines = pre ++ line :: post
    /\ In r (emitted float filepath threshold (carried ts pre)
               (i + List.length pre) line).
Proof.
  induction lines as [| l rest IH]; intros ts i r Hin;
    cbn [records_from] in Hin.
  - destruct Hin.
  - apply in_app_or in Hin. destruct Hin as [Hin | Hin].
    + exists [], l, rest. cbn [app List.length]. unfold carried.
      cbn [fold_left]. now rewrite Nat.add_0_r.
    + apply IH in Hin. destruct Hin as (pre & line & post & -> & Hin).
      exists (l :: pre), line, post. split; [reflexivity |].
      unfold carried in *; cbn [fold_left List.length].
      now replace (i + S (List.length pre)) with (S i + List.length pre) by lia.
Qed.

Lemma records_from_line_number lines ts i r :
  In r (records_from float filepath threshold ts i lines) ->
  i < line_number r <= i + List.length lines.
Proof.
  intros Hin. apply records_from_In in Hin.
  destruct Hin as (pre & line & post & -> & Hin).
  apply emitted_In in Hin. destruct Hin as [Hc _].
  apply candidate_fields in Hc. destruct Hc as (Hn & _).
  rewrite Hn, length_app. simpl. lia.
Qed.

(** The entries a line at position [length pre] contributes. *)
Lemma records_at pre line post ts i r :
  In r (records_from float filepath threshold ts i (pre ++ line :: post)) ->
  line_number r = i + List.length pre + 1 ->
  In r (emitted float filepath threshold (carried ts pre)
          (i + List.length pre) line).
Proof.
  intros Hin Hn. rewrite records_from_app in Hin.
  cbn [records_from] in Hin.
  apply in_app_or in Hin. destruct Hin as [Hin | Hin].
  - apply records_from_line_number in Hin. lia.
  - apply in_app_or in Hin. destruct Hin as [Hin | Hin]; [assumption |].
    apply records_from_line_number in Hin. lia.
Qed.

Lemma carried_none ts lines :
  (forall l, In l lines -> Str.match_prefix timestamp_re (clean l) = false) ->
  carried ts lines = ts.
Proof.
  revert ts. induction lines as [| l rest IH]; intros ts H; [reflexivity |].
  unfold carried in *; cbn [fold_left]. unfold next_timestamp at 2.
  rewrite (H l (or_introl eq_refl)). apply IH.
  intros l' Hl'. apply H. now right.
Qed.

Lemma carried_last ts a tsl b :
  Str.match_prefix timestamp_re (clean tsl) = true ->
  (forall l, In l b -> Str.match_prefix timestamp_re (clean l) = false) ->
  carried ts (a ++ tsl :: b) = clean tsl.
Proof.
  intros Hts Hb. rewrite carried_app.
  change (carried (carried ts a) (tsl :: b))
    with (carried (next_timestamp (carried ts a) tsl) b).
  rewrite carried_none by assumption.
  unfold next_timestamp. now rewrite Hts.
Qed.

End LoopFacts.

Section SortFacts.
Context {A : Type} (lt : A -> A -> bool).

Lemma insert_perm x l : Permutation (PySort.insert lt x l) (x :: l).
Proof.
  induction l as [| y l IH]; simpl; [reflexivity |].
  destruct (lt y x); [| reflexivity].
  rewrite IH. apply perm_swap.
Qed.

Lemma sort_asc_perm l : Permutation (PySort.sort_asc lt l) l.
Proof.
  induction l as [| x l IH]; simpl; [reflexivity |].
  rewrite insert_perm. now constructor.
Qed.

Lemma sort_desc_perm l : Permutation (PySort.sort_desc lt l) l.
Proof.
  unfold PySort.sort_desc.
  rewrite <- Permutation_rev, sort_asc_perm. symmetry. apply Permutation_rev.
Qed.

(** An element passes only elements it is greater than, so a test that
    never holds of both keeps its answers in order. *)
Lemma insert_filter (p : A -> bool) x l :
  (forall y, In y l -> lt y x = true -> p x = true -> p y = false) ->
  filter p (PySort.insert lt x l) = filter p (x :: l).
Proof.
  induction l as [| y l IH]; intros H; [reflexivity |].
  cbn [PySort.insert]. destruct (lt y x) eqn:Hlt; [| reflexivity].
  cbn [filter]. rewrite IH by (intros z Hz; apply H; now right).
  cbn [filter]. destruct (p x) eqn:Hx; [| reflexivity].
  now rewrite (H y (or_introl eq_refl) Hlt eq_refl).
Qed.

Lemma sort_asc_filter (p : A -> bool) l :
  (forall x y, lt y x = true -> p x = true -> p y = false) ->
  filter p (PySort.sort_asc lt l) = filter p l.
Proof.
  intros H. induction l as [| x l IH]; [reflexivity |].
  cbn [PySort.sort_asc fold_right].
  rewrite insert_filter by (intros y _; apply H).
  cbn [filter]. fold (PySort.sort_asc lt l). now rewrite IH.
Qed.

Lemma filter_rev' (p : A -> bool) l : filter p (rev l) = rev (filter p l).
Proof.
  induction l as [| x l IH]; [reflexivity |].
  cbn [rev filter]. rewrite filter_app, IH. cbn [filter].
  destruct (p x); [reflexivity | now rewrite app_nil_r].
Qed.

Lemma sort_desc_filter (p : A -> bool) l :
  (forall x y, lt y x = true -> p x = true -> p y = false) ->
  filter p (PySort.sort_desc lt l) = filter p l.
Proof.
  intros H. unfold PySort.sort_desc.
  now rewrite filter_rev', sort_asc_filter, filter_rev', rev_involutive.
Qed.

Lemma StronglySorted_app (R : A -> A -> Prop) l1 l2 :
  StronglySorted R l1 -> StronglySorted R l2 ->
  (forall x y, In x l1 -> In y l2 -> R x y) ->
  StronglySorted R (l1 ++ l2).
Proof.
  induction 1 as [| x l1 Hs IH Hall]; intros H2 Hc; [assumption |].
  cbn [app]. constructor.
  - apply IH; [assumption |]. intros a b Ha Hb. apply Hc; [now right | assumption].
  - apply Forall_app. split; [assumption |].
    apply Forall_forall. intros y Hy. apply Hc; [now left | assumption].
Qed.

Lemma StronglySorted_rev (R : A -> A -> Prop) l :
  StronglySorted R l -> StronglySorted (fun x y => R y x) (rev l).
Proof.
  induction 1 as [| x l Hs IH Hall]; [constructor |].
  cbn [rev]. apply StronglySorted_app; [assumption | repeat constructor |].
  intros a b Ha [<- | []]. apply in_rev in Ha.
  rewrite Forall_forall in Hall. now apply Hall.
Qed.

End SortFacts.

Section KeySort.
Import PyFloat.
Context {A : Type} (key : A -> pyfloat).

Local Abbreviation lt := (key_lt key).
Local Abbreviation le := (key_le key).
Local Abbreviation ordered := (key_ordered key).

Lemma insert_sorted x l :
  ordered x -> Forall ordered l ->
  StronglySorted le l -> StronglySorted le (PySort.insert lt x l).
Proof.
  intros Hx Hl Hs. induction Hs as [| y l Hs IH Hall]; cbn [PySort.insert].
  - repeat constructor.
  - inversion Hl as [| ? ? Hy Hl']; subst.
    destruct (lt y x) eqn:Hlt.
    + constructor; [now apply IH |].
      apply Forall_forall. intros z Hz.
      apply (Permutation_in _ (insert_perm lt x l)) in Hz.
      destruct Hz as [<- | Hz].
      * unfold key_le, key_lt in *. rewrite <- FloatFacts.fgt_flt in Hlt.
        rewrite FloatFacts.fgt_flt in Hlt.
        revert Hlt. clear. generalize (key y), (key x). intros a b.
        FloatFacts.fsolve.
      * rewrite Forall_forall in Hall. now apply Hall.
    + assert (Hxy : le x y).
      { unfold key_le, key_lt, key_ordered in *.
        now apply FloatFacts.flt_false_fle. }
      constructor; [now constructor |].
      constructor; [assumption |].
      apply Forall_forall. intros z Hz.
      rewrite Forall_forall in Hall.
      unfold key_le in *. eapply FloatFacts.fle_trans; [exact Hxy |].
      now apply Hall.
Qed.

Lemma sort_asc_sorted l :
  Forall ordered l -> StronglySorted le (PySort.sort_asc lt l).
Proof.
  induction 1 as [| x l Hx Hl IH]; cbn [PySort.sort_asc fold_right].
  - constructor.
  - apply insert_sorted; [assumption | | exact IH].
    apply Forall_forall. intros y Hy.
    apply (Permutation_in _ (sort_asc_perm lt l)) in Hy.
    rewrite Forall_forall in Hl. now apply Hl.
Qed.

Lemma sort_desc_sorted l :
  Forall ordered l ->
  StronglySorted (fun x y => fge (key x) (key y) = true)
    (PySort.sort_desc lt l).
Proof.
  intros Hl. unfold PySort.sort_desc.
  assert (Hs : StronglySorted le (PySort.sort_asc lt (rev l))).
  { apply sort_asc_sorted. apply Forall_forall. intros y Hy.
    apply in_rev in Hy. rewrite Forall_forall in Hl. now apply Hl. }
  apply StronglySorted_rev in Hs.
  eapply StronglySorted_ind with (P := fun l' =>
    StronglySorted (fun x y => fge (key x) (key y) = true) l');
    [constructor | | exact Hs].
  intros a l' _ IH Hall. constructor; [assumption |].
  eapply Forall_impl; [| exact Hall].
  intros b Hb. unfold key_le in Hb. now rewrite FloatFacts.fge_fle.
Qed.

Lemma sort_desc_stable k l :
  filter (fun x => feq (key x) k) (PySort.sort_desc lt l)
  = filter (fun x => feq (key x) k) l.
Proof.
  apply sort_desc_filter. intros x y. unfold key_lt.
  generalize (key x), (key y). clear. intros a b. FloatFacts.fsolve.
Qed.

End KeySort.

Section FileFacts.
Variable float : string -> option pyfloat.
Variable fs : string -> option (list string).

Lemma process_files_In threshold files : forall acc all r,
  process_files float fs threshold files acc = inr all ->
  In r all ->
  In r acc
  \/ exists filepath lines,
       In filepath files /\ fs filepath = Some lines
       /\ In r (scan_lines float filepath threshold lines).
Proof.
  induction files as [| p rest IH]; intros acc all r Hrun Hin;
    cbn [process_files] in Hrun.
  - injection Hrun as <-. now left.
  - unfold check_high_await_times in Hrun.
    destruct (fs p) as [lines |] eqn:Hp; [| discriminate].
    destruct (IH _ _ _ Hrun Hin) as [Hacc | (q & ls & Hq & Hfs & Hr)].
    + apply in_app_or in Hacc. destruct Hacc as [Hacc | Hnew].
      * now left.
      * right. exists p, lines. repeat split; [now left | assumption ..].
    + right. exists q, ls. repeat split; [now right | assumption ..].
Qed.

Lemma process_files_unreadable threshold files : forall acc filepath,
  In filepath files -> fs filepath = None ->
  process_files float fs threshold files acc = inl OSError.
Proof.
  induction files as [| p rest IH]; intros acc q Hin Hq; [destruct Hin |].
  cbn [process_files]. unfold check_high_await_times.
  destruct (fs p) as [lines |] eqn:Hp; [| reflexivity].
  destruct Hin as [-> | Hin]; [congruence |]. now apply (IH _ q).
Qed.

(** An entry of a scan is the candidate of one line of the file. *)
Lemma scan_lines_In filepath threshold lines r :
  In r (scan_lines float filepath threshold lines) ->
  exists pre line post,
    lines = pre ++ line :: post
    /\ candidate float filepath (carried "" pre) (List.length pre) line
       = Some r
    /\ exceeds threshold r = true.
Proof.
  rewrite scan_lines_eq. intros Hin. apply records_from_In in Hin.
  destruct Hin as (pre & line & post & -> & Hin).
  apply emitted_In in Hin. now exists pre, line, post.
Qed.

Lemma scan_lines_at filepath threshold pre line post r :
  In r (scan_lines float filepath threshold (pre ++ line :: post)) ->
  line_number r = S (List.length pre) ->
  candidate float filepath (carried "" pre) (List.length pre) line = Some r
  /\ exceeds threshold r = true.
Proof.
  rewrite scan_lines_eq. intros Hin Hn.
  apply records_at in Hin; [| lia]. now apply emitted_In in Hin.
Qed.

(** Raising the threshold filters the scan. *)
Lemma emitted_filter filepath t1 t2 ts i line :
  PyFloat.fle t1 t2 = true ->
  emitted float filepath t2 ts i line
  = filter (exceeds t2) (emitted float filepath t1 ts i line).
Proof.
  intros Hle. unfold emitted.
  destruct (candidate float filepath ts i line) as [e |]; [| reflexivity].
  destruct (exceeds t2 e) eqn:H2.
  - assert (H1 : exceeds t1 e = true).
    { unfold exceeds in *. apply orb_true_iff in H2. apply orb_true_iff.
      destruct H2 as [H2 | H2]; [left | right];
        eapply FloatFacts.fgt_weaken; eassumption. }
    rewrite H1. cbn [filter]. now rewrite H2.
  - destruct (exceeds t1 e); [| reflexivity]. cbn [filter]. now rewrite H2.
Qed.

Lemma records_from_filter filepath t1 t2 lines : forall ts i,
  PyFloat.fle t1 t2 = true ->
  records_from float filepath t2 ts i lines
  = filter (exceeds t2) (records_from float filepath t1 ts i lines).
Proof.
  induction lines as [| line rest IH]; intros ts i Hle; [reflexivity |].
  cbn [records_from]. rewrite filter_app, <- IH by assumption.
  now rewrite <- emitted_filter.
Qed.

(** A line that yields no candidate leaves the scan as an empty line
    does. *)
Lemma records_from_skip filepath threshold pre line post :
  Str.match_prefix timestamp_re (clean line) = false ->
  candidate float filepath (carried "" pre) (List.length pre) line = None ->
  scan_lines float filepath threshold (pre ++ line :: post)
  = scan_lines float filepath threshold (pre ++ "" :: post).
Proof.
  intros Hts Hc. rewrite !scan_lines_eq, !records_from_app.
  f_equal. cbn [records_from]. rewrite Nat.add_0_l.
  replace (emitted float filepath threshold (carried "" pre)
             (List.length pre) line) with (@nil entry)
    by (unfold emitted; now rewrite Hc).
  replace (next_timestamp (carried "" pre) line) with (carried "" pre)
    by (unfold next_timestamp; now rewrite Hts).
  reflexivity.
Qed.

End FileFacts.

(** ** The extractor and its threshold *)

(** C1, as stated, fails: a row whose read await is NaN and whose write
    await is above the threshold is reported, and its peak, which [max]
    leaves at NaN, is not above the threshold. *)
Lemma extractor_peak_counterexample :
  ~ (forall (float : string -> option pyfloat) fs filepath threshold
            results r,
        check_high_await_times float fs filepath threshold = inr results ->
        In r results ->
        PyFloat.fgt (max_await r) threshold = true).
Proof.
  intros H.
  assert (Hrun : check_high_await_times Sample.float_plain Inputs.fs1
                   Inputs.host1 Inputs.t100 = inr Inputs.host1_results)
    by (vm_compute; reflexivity).
  pose proof (H _ _ _ _ _
                (nth 1 Inputs.host1_results
                   (mk_entry "" "" 0 "" "" "" FNaN FNaN "" [])) Hrun) as Hnan.
  assert (Hgt : PyFloat.fgt
                  (max_await
                     (nth 1 Inputs.host1_results
                        (mk_entry "" "" 0 "" "" "" FNaN FNaN "" [])))
                  Inputs.t100 = true).
  { apply Hnan. vm_compute. right. left. reflexivity. }
  vm_compute in Hgt. discriminate Hgt.
Qed.

(** C1 (amended): every entry the extractor returns has its read await or
    its write await above the threshold, and its peak above the threshold
    unless its read await is NaN; a line whose two parsed awaits are both at
    or below the threshold yields no entry. *)
Theorem extractor_exceeds_threshold
    (float : string -> option pyfloat) fs filepath threshold results :
  check_high_await_times float fs filepath threshold = inr results ->
  (forall r, In r results ->
     PyFloat.fgt (r_await r) threshold || PyFloat.fgt (w_await r) threshold
     = true
     /\ (PyFloat.is_nan (r_await r) = false ->
         PyFloat.fgt (max_await r) threshold = true))
  /\ (forall pre line post rv wv,
        fs filepath = Some (pre ++ line :: post) ->
        float (nth 9 (Str.split_ws (clean line)) "") = Some rv ->
        float (nth 10 (Str.split_ws (clean line)) "") = Some wv ->
        PyFloat.fle rv threshold = true ->
        PyFloat.fle wv threshold = true ->
        forall r, In r results -> line_number r <> S (List.length pre)).
Proof.
  unfold check_high_await_times.
  destruct (fs filepath) as [lines |] eqn:Hfs; [| discriminate].
  intros [= <-]. split.
  - intros r Hin. apply scan_lines_In in Hin.
    destruct Hin as (pre & line & post & _ & _ & Hex).
    split; [exact Hex |].
    intros Hnan. unfold max_await.
    now rewrite FloatFacts.max_exceeds.
  - intros pre line post rv wv [= ->] Hr Hw Hrle Hwle r Hin Hn.
    apply scan_lines_at in Hin; [| assumption].
    destruct Hin as [Hc Hex]. apply candidate_fields in Hc.
    destruct Hc as (_ & _ & _ & _ & _ & _ & Hr' & Hw').
    rewrite Hr in Hr'. rewrite Hw in Hw'.
    injection Hr' as Hr'. injection Hw' as Hw'.
    unfold exceeds in Hex. rewrite <- Hr', <- Hw' in Hex.
    revert Hex Hrle Hwle. clear.
    intros Hex Hrle Hwle. apply orb_true_iff in Hex.
    destruct Hex as [Hex | Hex]; FloatFacts.fsolve.
Qed.

Lemma extractor_exceeds_threshold_witness :
  check_high_await_times Sample.float_plain Inputs.fs1 Inputs.host1
    Inputs.t100 = inr Inputs.host1_results
  /\ (forall r, In r Inputs.host1_results ->
      PyFloat.fgt (r_await r) Inputs.t100
      || PyFloat.fgt (w_await r) Inputs.t100 = true
      /\ (PyFloat.is_nan (r_await r) = false ->
          PyFloat.fgt (max_await r) Inputs.t100 = true)).
Proof.
  split; [vm_compute; reflexivity |].
  apply (extractor_exceeds_threshold Sample.float_plain Inputs.fs1
           Inputs.host1 Inputs.t100 Inputs.host1_results).
  vm_compute. reflexivity.
Defined.

(** C10, as stated, fails: at threshold 200 the row with read await NaN and
    write await 300 is reported, yet it is not among the entries of the
    output at threshold 100 whose peak is above 200, its peak being NaN. *)
Lemma threshold_monotone_counterexample :
  ~ (forall (float : string -> option pyfloat) fs filepath t1 t2 out1 out2,
        PyFloat.fle t1 t2 = true ->
        check_high_await_times float fs filepath t1 = inr out1 ->
        check_high_await_times float fs filepath t2 = inr out2 ->
        out2 = filter (fun r => PyFloat.fgt (max_await r) t2) out1).
Proof.
  intros H.
  assert (Heq : scan_lines Sample.float_plain Inputs.host1 Inputs.t200
                  Inputs.host1_lines
                = filter (fun r => PyFloat.fgt (max_await r) Inputs.t200)
                    Inputs.host1_results).
  { apply (H Sample.float_plain Inputs.fs1 Inputs.host1
             Inputs.t100 Inputs.t200);
      vm_compute; reflexivity. }
  vm_compute in Heq. discriminate Heq.
Qed.

(** C10 (amended): for thresholds [t1 <= t2], the output at [t2] is the
    output at [t1] filtered, in order and entry for entry, by the test of
    the extractor, read await above [t2] or write await above [t2]; that is
    the filter by peak above [t2] whenever no read await of the output at
    [t1] is NaN. *)
Theorem threshold_monotone
    (float : string -> option pyfloat) fs filepath t1 t2 out1 out2 :
  PyFloat.fle t1 t2 = true ->
  check_high_await_times float fs filepath t1 = inr out1 ->
  check_high_await_times float fs filepath t2 = inr out2 ->
  out2 = filter (exceeds t2) out1
  /\ ((forall r, In r out1 -> PyFloat.is_nan (r_await r) = false) ->
      out2 = filter (fun r => PyFloat.fgt (max_await r) t2) out1).
Proof.
  unfold check_high_await_times.
  destruct (fs filepath) as [lines |]; [| discriminate].
  intros Hle [= <-] [= <-].
  assert (Heq : scan_lines float filepath t2 lines
                = filter (exceeds t2) (scan_lines float filepath t1 lines)).
  { rewrite !scan_lines_eq. now apply records_from_filter. }
  split; [exact Heq |].
  intros Hnan. rewrite Heq. apply filter_ext_in.
  intros r Hr. unfold exceeds, max_await.
  now rewrite FloatFacts.max_exceeds by now apply Hnan.
Qed.

Lemma threshold_monotone_witness :
  scan_lines Sample.float_plain Inputs.host1 Inputs.t200 Inputs.host1_lines
  = filter (exceeds Inputs.t200)
      (scan_lines Sample.float_plain Inputs.host1 Inputs.t100
         Inputs.host1_lines).
Proof.
  apply (threshold_monotone Sample.float_plain Inputs.fs1 Inputs.host1
           Inputs.t100 Inputs.t200); vm_compute; reflexivity.
Defined.

(** ** The carried timestamp *)

(** C2: an entry of the run comes from a line of its own file; if
    timestamp lines precede that line in the file, the entry carries the
    cleaned text of the last of them, and if none does it carries the empty
    string, whatever the other files hold. *)
Theorem timestamp_carry_forward
    (float : string -> option pyfloat) fs threshold files all_results
    r pre line post :
  process_files float fs threshold files [] = inr all_results ->
  In r all_results ->
  fs (full_filepath r) = Some (pre ++ line :: post) ->
  line_number r = S (List.length pre) ->
  (forall a tsl b,
      pre = a ++ tsl :: b ->
      Str.match_prefix timestamp_re (clean tsl) = true ->
      (forall l, In l b -> Str.match_prefix timestamp_re (clean l) = false) ->
      timestamp r = clean tsl)
  /\ ((forall l, In l pre ->
         Str.match_prefix timestamp_re (clean l) = false) ->
      timestamp r = "").
Proof.
  intros Hrun Hin Hfs Hn.
  destruct (process_files_In _ _ _ _ _ _ _ Hrun Hin)
    as [[] | (p & lines & _ & Hp & Hscan)].
  assert (Hpath : full_filepath r = p).
  { apply scan_lines_In in Hscan.
    destruct Hscan as (pre' & line' & post' & _ & Hc & _).
    now apply candidate_fields in Hc. }
  rewrite Hpath, Hp in Hfs. injection Hfs as ->.
  apply scan_lines_at in Hscan; [| assumption].
  destruct Hscan as [Hc _]. apply candidate_fields in Hc.
  destruct Hc as (_ & Hts & _). split.
  - intros a tsl b -> Hmatch Hnone. rewrite Hts. now apply carried_last.
  - intros Hnone. rewrite Hts. now apply carried_none.
Qed.

Lemma timestamp_carry_forward_witness :
  process_files Sample.float_plain Inputs.fs1 Inputs.t100 [Inputs.host1] []
  = inr Inputs.host1_results
  /\ timestamp
       (hd (mk_entry "" "" 0 "" "" "" FNaN FNaN "" []) Inputs.host1_results)
     = clean ("07/01/2024 03:00:00 PM" ++ Inputs.nl)%string.
Proof.
  split; [vm_compute; reflexivity |].
  refine (proj1
            (timestamp_carry_forward Sample.float_plain Inputs.fs1
               Inputs.t100 [Inputs.host1] Inputs.host1_results _
               [("07/01/2024 03:00:00 PM" ++ Inputs.nl)%string]
               (Inputs.row "sda" "150.5" "12.0")
               [Inputs.row "sdb" "nan" "300"] _ _ _ _)
            [] ("07/01/2024 03:00:00 PM" ++ Inputs.nl)%string [] _ _ _).
  - vm_compute. reflexivity.
  - vm_compute. left. reflexivity.
  - vm_compute. reflexivity.
  - vm_compute. reflexivity.
  - reflexivity.
  - vm_compute. reflexivity.
  - intros l [].
Defined.

(** ** Malformed lines *)

(** C9: a line that is no timestamp line and has fewer than sixteen
    tokens, or whose token 9 or token 10 [float] rejects, yields no entry
    and no error: the extractor returns, and returns what it returns for
    the file with that line emptied. *)
Theorem malformed_line_skipped
    (float : string -> option pyfloat) fs filepath threshold pre line post :
  fs filepath = Some (pre ++ line :: post) ->
  Str.match_prefix timestamp_re (clean line) = false ->
  List.length (Str.split_ws (clean line)) < 16
  \/ float (nth 9 (Str.split_ws (clean line)) "") = None
  \/ float (nth 10 (Str.split_ws (clean line)) "") = None ->
  exists results,
    check_high_await_times float fs filepath threshold = inr results
    /\ (forall r, In r results -> line_number r <> S (List.length pre))
    /\ results = scan_lines float filepath threshold (pre ++ "" :: post).
Proof.
  intros Hfs Hts Hbad.
  assert (Hnone : forall ts i, candidate float filepath ts i line = None).
  { intros ts i. unfold candidate. rewrite Hts. cbn [negb andb].
    destruct (is_data_line (clean line)); [| reflexivity]. cbn [andb].
    destruct (is_device_row (Str.split_ws (clean line))) eqn:Hrow;
      [| reflexivity].
    destruct Hbad as [Hlen | [Hr | Hw]].
    - unfold is_device_row in Hrow. apply andb_true_iff in Hrow.
      destruct Hrow as [Hrow _]. apply Nat.leb_le in Hrow. lia.
    - now rewrite Hr.
    - destruct (float (nth 9 (Str.split_ws (clean line)) ""));
        [now rewrite Hw | reflexivity]. }
  exists (scan_lines float filepath threshold (pre ++ line :: post)).
  unfold check_high_await_times. rewrite Hfs. split; [reflexivity |]. split.
  - intros r Hin Hn. apply scan_lines_at in Hin; [| assumption].
    destruct Hin as [Hc _]. rewrite Hnone in Hc. discriminate Hc.
  - now apply records_from_skip.
Qed.

Lemma malformed_line_skipped_witness :
  exists results,
    check_high_await_times Sample.float_plain Inputs.fs_short Inputs.host1
      Inputs.t100 = inr results
    /\ (forall r, In r results -> line_number r <> 2)
    /\ results
       = scan_lines Sample.float_plain Inputs.host1 Inputs.t100
           ([Inputs.row "sda" "300" "1.0"] ++ ""
            :: [Inputs.row "sdc" "n/a" "700"; Inputs.row "sdd" "400" "1.0"]).
Proof.
  apply (malformed_line_skipped Sample.float_plain Inputs.fs_short
           Inputs.host1 Inputs.t100 [Inputs.row "sda" "300" "1.0"]
           ("sdb 1.0 2.0 3.0 4.0 0.0 0.0 0.0 0.0 900.0" ++ Inputs.nl)%string
           [Inputs.row "sdc" "n/a" "700"; Inputs.row "sdd" "400" "1.0"]).
  - vm_compute. reflexivity.
  - vm_compute. reflexivity.
  - left. vm_compute. lia.
Defined.

(** ** The run as a whole *)

Lemma with_servers_snd l : forall rows,
  with_servers l = inr rows -> map snd rows = l.
Proof.
  induction l as [| e l IH]; intros rows H; cbn [with_servers] in H.
  - now injection H as <-.
  - destruct (server_of e); [discriminate |].
    destruct (with_servers l) as [| rows']; [discriminate |].
    injection H as <-. cbn [map snd]. now rewrite (IH rows' eq_refl).
Qed.

Lemma server_of_exn e x : server_of e = inl x -> x = IndexError.
Proof.
  unfold server_of. destruct (nth_error _ 1); [discriminate |].
  now intros [= <-].
Qed.

Section RunFacts.
Variable float : string -> option pyfloat.
Variable fs : string -> option (list string).

(** What a completed run went through. *)
Lemma main_completed a iostat_files rep :
  main float fs a iostat_files = Completed rep ->
  exists unsorted,
    process_files float fs (effective_threshold a)
      (PySort.sort_asc String.ltb iostat_files) [] = inr unsorted
    /\ rep_threshold rep = effective_threshold a
    /\ rep_all_results rep = sort_results unsorted
    /\ group_by_server (sort_results unsorted) [] = inr (rep_by_server rep)
    /\ with_servers
         (slice_to (sort_results unsorted)
            (display_limit a (sort_results unsorted)))
       = inr (rep_table rep)
    /\ (forall rows, rep_detailed rep = Some rows ->
        with_servers
          (if (display_limit a (sort_results unsorted) =? 0)%Z
           then sort_results unsorted
           else slice_to (sort_results unsorted)
                  (display_limit a (sort_results unsorted)))
        = inr rows)
    /\ rep_breakdown rep
       = severity_breakdown (effective_threshold a) (sort_results unsorted)
    /\ rep_slow_shown rep = slow_shown (rep_breakdown rep).
Proof.
  unfold main. destruct iostat_files as [| f files]; [discriminate |].
  destruct (process_files float fs (effective_threshold a)
              (PySort.sort_asc String.ltb (f :: files)) [])
    as [| unsorted] eqn:Hrun; [discriminate |].
  destruct unsorted as [| r0 rest]; [discriminate |].
  set (all_results := sort_results (r0 :: rest)).
  destruct (group_by_server all_results []) as [| by_server] eqn:Hgroup;
    [discriminate |].
  destruct (with_servers (slice_to all_results (display_limit a all_results)))
    as [| table] eqn:Htable; [discriminate |].
  destruct (args_detailed a).
  - destruct (with_servers
                (if (display_limit a all_results =? 0)%Z then all_results
                 else slice_to all_results (display_limit a all_results)))
      as [| rows] eqn:Hrows; [discriminate |].
    cbv zeta. intros [= <-]. exists (r0 :: rest).
    cbn [rep_threshold rep_all_results rep_by_server rep_table rep_detailed
         rep_breakdown rep_slow_shown].
    repeat split; try assumption; try reflexivity.
    intros rows' [= <-]. exact Hrows.
  - cbv zeta. intros [= <-]. exists (r0 :: rest).
    cbn [rep_threshold rep_all_results rep_by_server rep_table rep_detailed
         rep_breakdown rep_slow_shown].
    repeat split; try assumption; try reflexivity.
    intros rows' [=].
Qed.

End RunFacts.

(** ** Unreadable files *)

(** C5, as stated, fails: with one unreadable file and one readable file
    that holds an entry above the threshold, the run ends with the error
    of the unreadable file. *)
Lemma unreadable_file_counterexample :
  ~ (forall (float : string -> option pyfloat) fs a iostat_files filepath,
        In filepath iostat_files -> fs filepath = None ->
        forall e, main float fs a iostat_files <> Raised e).
Proof.
  intros H.
  apply (H Sample.float_plain Inputs.fs2 (Inputs.args_of Inputs.t100 None)
           [Inputs.host1; Inputs.host2] Inputs.host1
           (or_introl eq_refl) eq_refl OSError).
  vm_compute. reflexivity.
Qed.

(** C5 (amended): when one of the input files cannot be opened or read,
    the error leaves the loop over the files and the run: [main] ends with
    that [OSError] and reports nothing, whatever the other files hold. *)
Theorem unreadable_file_aborts
    (float : string -> option pyfloat) fs a iostat_files filepath :
  In filepath iostat_files -> fs filepath = None ->
  main float fs a iostat_files = Raised OSError.
Proof.
  intros Hin Hnone. unfold main.
  destruct iostat_files as [| f files]; [destruct Hin |].
  rewrite (process_files_unreadable float fs _ _ [] filepath);
    [reflexivity | | assumption].
  eapply Permutation_in; [| exact Hin].
  symmetry. apply sort_asc_perm.
Qed.

Lemma unreadable_file_aborts_witness :
  main Sample.float_plain Inputs.fs2 (Inputs.args_of Inputs.t100 None)
    [Inputs.host1; Inputs.host2] = Raised OSError.
Proof.
  apply (unreadable_file_aborts Sample.float_plain Inputs.fs2
           (Inputs.args_of Inputs.t100 None) [Inputs.host1; Inputs.host2]
           Inputs.host1).
  - left. reflexivity.
  - vm_compute. reflexivity.
Defined.

(** ** The display limit *)

(** C6, as stated, fails: a limit of -1 is passed to the slice as it is,
    and the table shows the sorted entries without the last one. *)
Lemma display_limit_counterexample :
  ~ (forall (float : string -> option pyfloat) fs a iostat_files rep n,
        main float fs a iostat_files = Completed rep ->
        args_limit a = Some n -> (n <= 0)%Z ->
        map snd (rep_table rep) = rep_all_results rep).
Proof.
  intros H.
  assert (Hm : exists rep,
             main Sample.float_plain Inputs.fs1
               (Inputs.args_of Inputs.t100 (Some (-1)%Z)) [Inputs.host1]
             = Completed rep)
    by (eexists; vm_compute; reflexivity).
  destruct Hm as [rep Hm].
  assert (Heq : map snd (rep_table rep) = rep_all_results rep).
  { apply (H _ _ _ _ rep (-1)%Z Hm); [reflexivity | lia]. }
  vm_compute in Hm. injection Hm as <-.
  vm_compute in Heq. discriminate Heq.
Qed.

(** C6 (amended): the table shows the first N sorted entries for a
    positive limit N and all of them for a limit of 0 or no limit; the
    detailed entries, when asked for, are those of the table. *)
Theorem display_limit_view
    (float : string -> option pyfloat) fs a iostat_files rep :
  main float fs a iostat_files = Completed rep ->
  (forall n, args_limit a = Some n -> (0 < n)%Z ->
     map snd (rep_table rep) = firstn (Z.to_nat n) (rep_all_results rep))
  /\ (args_limit a = Some 0%Z \/ args_limit a = None ->
      map snd (rep_table rep) = rep_all_results rep)
  /\ (forall rows, rep_detailed rep = Some rows ->
      map snd rows = map snd (rep_table rep)).
Proof.
  intros Hmain. apply main_completed in Hmain.
  destruct Hmain as (unsorted & _ & _ & Hall & _ & Htable & Hdet & _).
  rewrite <- Hall in *. apply with_servers_snd in Htable.
  assert (Hfull : slice_to (rep_all_results rep)
                    (Z.of_nat (List.length (rep_all_results rep)))
                  = rep_all_results rep).
  { unfold slice_to.
    destruct (0 <=? Z.of_nat (List.length (rep_all_results rep)))%Z eqn:E;
      [| apply Z.leb_gt in E; lia].
    rewrite Nat2Z.id. apply firstn_all. }
  split; [| split].
  - intros n Hn Hpos. rewrite Htable. unfold display_limit. rewrite Hn.
    destruct (n =? 0)%Z eqn:E; [apply Z.eqb_eq in E; lia |].
    unfold slice_to. destruct (0 <=? n)%Z eqn:E'; [reflexivity |].
    apply Z.leb_gt in E'. lia.
  - intros Hn. rewrite Htable. unfold display_limit.
    destruct Hn as [-> | ->]; cbn; exact Hfull.
  - intros rows Hrows. apply Hdet in Hrows. apply with_servers_snd in Hrows.
    rewrite Hrows, Htable.
    destruct (display_limit a (rep_all_results rep) =? 0)%Z eqn:E;
      [| reflexivity].
    apply Z.eqb_eq in E. rewrite E. unfold display_limit in E.
    assert (Hlen : List.length (rep_all_results rep) = 0).
    { destruct (args_limit a) as [n |]; [| lia].
      destruct (n =? 0)%Z eqn:E0; [lia |]. apply Z.eqb_neq in E0. lia. }
    destruct (rep_all_results rep); [reflexivity | discriminate Hlen].
Qed.

Lemma display_limit_view_witness :
  exists rep,
    main Sample.float_plain Inputs.fs1
      (Inputs.args_of Inputs.t100 (Some 1%Z)) [Inputs.host1] = Completed rep
    /\ map snd (rep_table rep) = firstn 1 (rep_all_results rep).
Proof.
  eexists. split; [vm_compute; reflexivity |].
  refine (proj1 (display_limit_view Sample.float_plain Inputs.fs1
                   (Inputs.args_of Inputs.t100 (Some 1%Z)) [Inputs.host1]
                   _ _) 1%Z eq_refl _).
  - vm_compute. reflexivity.
  - reflexivity.
Defined.

(** ** Grouping by server *)

Lemma dict_get_append server result d k :
  dict_get k (dict_append server result d)
  = if String.eqb server k
    then Some (match dict_get server d with
               | Some v => v ++ [result]
               | None => [result]
               end)
    else dict_get k d.
Proof.
  induction d as [| [k' v] d IH]; cbn [dict_append dict_get].
  - destruct (String.eqb server k); reflexivity.
  - destruct (String.eqb k' server) eqn:E; cbn [dict_get].
    + apply String.eqb_eq in E. subst k'.
      destruct (String.eqb server k); reflexivity.
    + rewrite IH. destruct (String.eqb server k) eqn:E'.
      * apply String.eqb_eq in E'. subst k. now rewrite E.
      * destruct (String.eqb k' k); reflexivity.
Qed.



Lemma group_by_server_raises all_results : forall d r,
  In r all_results -> server_of r = inl IndexError ->
  group_by_server all_results d = inl IndexError.
Proof.
  induction all_results as [| x rest IH]; intros d r Hin Hr; [destruct Hin |].
  cbn [group_by_server].
  destruct (server_of x) as [e | server] eqn:Hs.
  - now rewrite (server_of_exn _ _ Hs).
  - destruct Hin as [-> | Hin]; [congruence |]. now apply (IH _ r).
Qed.

Lemma server_of_short e :
  List.length (Str.split "-" (filename e)) < 2 -> server_of e = inl IndexError.
Proof.
  intros Hlen. unfold server_of.
  destruct (nth_error (Str.split "-" (filename e)) 1) eqn:E; [| reflexivity].
  assert (1 < List.length (Str.split "-" (filename e))).
  { apply nth_error_Some. congruence. }
  lia.
Qed.



(** ** The global sort *)

Section ResultFacts.
Variable float : string -> option pyfloat.
Variable fs : string -> option (list string).

(** Every entry of a completed run passed the test of line 45 at the
    threshold of the run. *)
Lemma results_exceed a iostat_files rep r :
  main float fs a iostat_files = Completed rep ->
  In r (rep_all_results rep) ->
  exceeds (rep_threshold rep) r = true.
Proof.
  intros Hmain Hin. apply main_completed in Hmain.
  destruct Hmain as (unsorted & Hrun & -> & Hall & _).
  rewrite Hall in Hin.
  apply (Permutation_in _ (sort_desc_perm _ unsorted)) in Hin.
  destruct (process_files_In _ _ _ _ _ _ _ Hrun Hin)
    as [[] | (p & lines & _ & _ & Hscan)].
  apply scan_lines_In in Hscan.
  now destruct Hscan as (_ & _ & _ & _ & _ & Hex).
Qed.

End ResultFacts.

(** The order of the peaks is not descending in general: three rows of
    peaks 300, NaN and 500 stay in that order.  Reversed, their keys 500,
    NaN, 300 show no pair in which the later key is smaller, so the sort
    sees one ascending run and moves nothing; the entry of peak 300 ends
    before the entry of peak 500. *)
Lemma sorted_descending_counterexample :
  ~ (forall (float : string -> option pyfloat) fs a iostat_files rep,
        main float fs a iostat_files = Completed rep ->
        never_ascending (rep_all_results rep)).
Proof.
  intros H.
  assert (Hm : exists rep,
             main Sample.float_plain Inputs.fs3
               (Inputs.args_of Inputs.t100 None) [Inputs.host1]
             = Completed rep)
    by (eexists; vm_compute; reflexivity).
  destruct Hm as [rep Hm].
  pose proof (H _ _ _ _ rep Hm) as Hsorted.
  vm_compute in Hm. injection Hm as <-.
  unfold never_ascending in Hsorted. cbn [rep_all_results] in Hsorted.
  apply StronglySorted_inv in Hsorted. destruct Hsorted as [_ Hall].
  apply Forall_inv_tail, Forall_inv in Hall.
  vm_compute in Hall. discriminate Hall.
Qed.

(** C3, defect of the code: line 175 announces the entries sorted by
    await time, highest first, and line 176 sorts them on a key that is NaN
    for an entry whose read await is NaN.  On one file whose rows have the
    peaks 300, NaN (read await nan, write await 150) and 500, at threshold
    100, the run completes and reports the entries with their peaks in the
    order 300, NaN, 500: the entry of peak 300 stands before the entry of
    peak 500, and the sequence is not descending in any reading. *)
Theorem sorted_nan_key_order :
  exists rep,
    main Sample.float_plain Inputs.fs3 (Inputs.args_of Inputs.t100 None)
      [Inputs.host1] = Completed rep
    /\ map line_number (rep_all_results rep) = [1; 2; 3]
    /\ map max_await (rep_all_results rep)
       = [FFin (300 # 1); FNaN; FFin (500 # 1)]
    /\ ~ never_ascending (rep_all_results rep).
Proof.
  eexists. split; [vm_compute; reflexivity |].
  split; [vm_compute; reflexivity |].
  split; [vm_compute; reflexivity |].
  unfold never_ascending. cbn [rep_all_results]. intros Hsorted.
  apply StronglySorted_inv in Hsorted. destruct Hsorted as [_ Hall].
  apply Forall_inv_tail, Forall_inv in Hall.
  vm_compute in Hall. discriminate Hall.
Qed.

(** X18: the sorted sequence of a report is a rearrangement of the
    concatenation of the per-file outputs; when no entry has a NaN read
    await, so that no peak is NaN, it is in descending order of peak and
    entries of equal peak keep the order they have in the concatenation. *)
Theorem sorted_descending_stable
    (float : string -> option pyfloat) fs a iostat_files rep :
  main float fs a iostat_files = Completed rep ->
  exists unsorted,
    process_files float fs (effective_threshold a)
      (PySort.sort_asc String.ltb iostat_files) [] = inr unsorted
    /\ Permutation unsorted (rep_all_results rep)
    /\ ((forall r, In r unsorted -> PyFloat.is_nan (r_await r) = false) ->
        descending (rep_all_results rep)
        /\ forall k,
             same_peak k (rep_all_results rep) = same_peak k unsorted).
Proof.
  intros Hmain. apply main_completed in Hmain.
  destruct Hmain as (unsorted & Hrun & _ & Hall & _).
  exists unsorted. rewrite Hall. split; [exact Hrun |]. split.
  - symmetry. apply sort_desc_perm.
  - intros Hnan. split.
    + apply sort_desc_sorted. apply Forall_forall. intros r Hr.
      unfold key_ordered, max_await. rewrite FloatFacts.max_nan.
      now apply Hnan.
    + intros k. apply sort_desc_stable.
Qed.

Lemma sorted_descending_stable_witness :
  exists rep,
    main Sample.float_plain Inputs.fs_short
      (Inputs.args_of Inputs.t100 None) [Inputs.host1] = Completed rep
    /\ descending (rep_all_results rep).
Proof.
  eexists. split; [vm_compute; reflexivity |].
  destruct (sorted_descending_stable Sample.float_plain Inputs.fs_short
              (Inputs.args_of Inputs.t100 None) [Inputs.host1] _
              ltac:(vm_compute; reflexivity))
    as (unsorted & Hrun & _ & Hsorted).
  apply Hsorted. vm_compute in Hrun. injection Hrun as <-.
  intros r [<- | [<- | []]]; reflexivity.
Defined.

(** ** The severity breakdown *)

Module TierFacts.
Import PyFloat.

Lemma fle_fge a b : fle a b = fge b a.
Proof. FloatFacts.fsolve. Qed.

Lemma flt_negb_fge p c :
  is_nan p = false -> is_nan c = false -> flt p c = negb (fge p c).
Proof. FloatFacts.fsolve. Qed.

Lemma fge_mono p c1 c2 :
  fle c2 c1 = true -> fge p c1 = true -> fge p c2 = true.
Proof. FloatFacts.fsolve. Qed.

Lemma fle_flt_trans a b c :
  fle a b = true -> flt b c = true -> flt a c = true.
Proof. FloatFacts.fsolve. Qed.

Lemma in_range_const lo hi r :
  is_nan (max_await r) = false ->
  in_range (of_Z lo) (of_Z hi) r
  = fge (max_await r) (of_Z lo) && negb (fge (max_await r) (of_Z hi)).
Proof.
  intros Hp. unfold in_range.
  now rewrite fle_fge, flt_negb_fge.
Qed.

(** An entry that passed the test of line 45 is claimed by one test of the
    breakdown, or by none when its peak is NaN. *)
Lemma tier_count threshold r :
  exceeds threshold r = true ->
  count_true (tier_tests threshold r)
  = if is_nan (max_await r) then 0 else 1.
Proof.
  intros Hex. destruct (is_nan (max_await r)) eqn:Hp.
  - unfold tier_tests, is_catastrophic, is_critical, is_extreme,
      is_very_high, is_severe, is_medium_high, is_normal, in_range.
    destruct (max_await r); try discriminate Hp.
    destruct threshold as [| [|] |]; reflexivity.
  - assert (Hgt : fgt (max_await r) threshold = true).
    { unfold max_await in *. rewrite FloatFacts.max_nan in Hp.
      now rewrite FloatFacts.max_exceeds. }
    pose proof (FloatFacts.fgt_fle _ _ Hgt) as Hle.
    unfold tier_tests, is_catastrophic, is_critical, is_extreme,
      is_very_high, is_severe, is_medium_high, is_normal.
    rewrite !in_range_const by assumption.
    unfold in_range. rewrite Hle.
    rewrite (flt_negb_fge (max_await r) (of_Z 100)) by (assumption || reflexivity).
    pose proof (fge_mono (max_await r) (of_Z 5000) (of_Z 1000) eq_refl) as H1.
    pose proof (fge_mono (max_await r) (of_Z 1000) (of_Z 500) eq_refl) as H2.
    pose proof (fge_mono (max_await r) (of_Z 500) (of_Z 250) eq_refl) as H3.
    pose proof (fge_mono (max_await r) (of_Z 250) (of_Z 200) eq_refl) as H4.
    pose proof (fge_mono (max_await r) (of_Z 200) (of_Z 100) eq_refl) as H5.
    destruct (fge (max_await r) (of_Z 5000));
      destruct (fge (max_await r) (of_Z 1000));
      destruct (fge (max_await r) (of_Z 500));
      destruct (fge (max_await r) (of_Z 250));
      destruct (fge (max_await r) (of_Z 200));
      destruct (fge (max_await r) (of_Z 100));
      try reflexivity;
      try (specialize (H1 eq_refl); discriminate H1);
      try (specialize (H2 eq_refl); discriminate H2);
      try (specialize (H3 eq_refl); discriminate H3);
      try (specialize (H4 eq_refl); discriminate H4);
      try (specialize (H5 eq_refl); discriminate H5).
Qed.

Lemma bucket_sum threshold l :
  (forall r, In r l ->
     count_true (tier_tests threshold r)
     = if is_nan (max_await r) then 0 else 1) ->
  list_sum (bucket_sizes (severity_breakdown threshold l))
  = List.length (filter (fun r => negb (is_nan (max_await r))) l).
Proof.
  unfold bucket_sizes, severity_breakdown.
  cbn [catastrophic critical extreme very_high severe medium_high normal
       map list_sum].
  induction l as [| x l IH]; intros H; [reflexivity |].
  specialize (IH (fun r Hr => H r (or_intror Hr))).
  specialize (H x (or_introl eq_refl)).
  unfold tier_tests, count_true in H. cbn [filter].
  destruct (is_catastrophic x), (is_critical x), (is_extreme x),
    (is_very_high x), (is_severe x), (is_medium_high x),
    (is_normal threshold x), (is_nan (max_await x));
    cbn [filter List.length negb] in *; try discriminate H;
    unfold list_sum in *; cbn [fold_right] in *; lia.
Qed.

End TierFacts.

(** C4, as stated, fails: the entry whose read await is NaN has a NaN
    peak, which no range contains; the run reports two entries and the
    seven counts add up to one. *)
Lemma severity_partition_counterexample :
  ~ (forall (float : string -> option pyfloat) fs a iostat_files rep,
        main float fs a iostat_files = Completed rep ->
        list_sum (bucket_sizes (rep_breakdown rep))
        = List.length (rep_all_results rep)).
Proof.
  intros H.
  assert (Hm : exists rep,
             main Sample.float_plain Inputs.fs1
               (Inputs.args_of Inputs.t100 None) [Inputs.host1]
             = Completed rep)
    by (eexists; vm_compute; reflexivity).
  destruct Hm as [rep Hm]. pose proof (H _ _ _ _ rep Hm) as Hsum.
  vm_compute in Hm. injection Hm as <-.
  vm_compute in Hsum. discriminate Hsum.
Qed.

(** C4 (amended): the seven lists are the entries that pass the seven
    range tests; an entry whose peak is not NaN passes exactly one test, an
    entry whose peak is NaN passes none, and the seven counts add up to the
    number of entries whose peak is not NaN, which is the number of all
    entries when none has a NaN read await.  The Slow line is shown exactly
    when its list is not empty, and then the threshold is below 100. *)
Theorem severity_partition
    (float : string -> option pyfloat) fs a iostat_files rep :
  main float fs a iostat_files = Completed rep ->
  rep_breakdown rep
  = severity_breakdown (rep_threshold rep) (rep_all_results rep)
  /\ (forall r, In r (rep_all_results rep) ->
      count_true (tier_tests (rep_threshold rep) r)
      = if PyFloat.is_nan (max_await r) then 0 else 1)
  /\ list_sum (bucket_sizes (rep_breakdown rep))
     = List.length
         (filter (fun r => negb (PyFloat.is_nan (max_await r)))
            (rep_all_results rep))
  /\ ((forall r, In r (rep_all_results rep) ->
         PyFloat.is_nan (r_await r) = false) ->
      list_sum (bucket_sizes (rep_breakdown rep))
      = List.length (rep_all_results rep))
  /\ (rep_slow_shown rep = true <-> normal (rep_breakdown rep) <> [])
  /\ (rep_slow_shown rep = true ->
      PyFloat.flt (rep_threshold rep) (PyFloat.of_Z 100) = true).
Proof.
  intros Hmain.
  pose proof (fun r => results_exceed float fs a iostat_files rep r Hmain)
    as Hex.
  apply main_completed in Hmain.
  destruct Hmain as (unsorted & _ & Ht & Hall & _ & _ & _ & Hb & Hshown).
  rewrite <- Ht, <- Hall in Hb.
  assert (Hcount : forall r, In r (rep_all_results rep) ->
            count_true (tier_tests (rep_threshold rep) r)
            = if PyFloat.is_nan (max_await r) then 0 else 1).
  { intros r Hr. apply TierFacts.tier_count. now apply Hex. }
  assert (Hsum : list_sum (bucket_sizes (rep_breakdown rep))
                 = List.length
                     (filter (fun r => negb (PyFloat.is_nan (max_await r)))
                        (rep_all_results rep))).
  { rewrite Hb. now apply TierFacts.bucket_sum. }
  assert (Hiff : rep_slow_shown rep = true <-> normal (rep_breakdown rep) <> []).
  { rewrite Hshown. unfold slow_shown.
    destruct (normal (rep_breakdown rep)); split; congruence. }
  repeat split; try assumption; try apply Hiff.
  - intros Hnan. rewrite Hsum. f_equal.
    apply forallb_filter_id. apply forallb_forall. intros r Hr.
    unfold max_await. rewrite FloatFacts.max_nan.
    now rewrite (Hnan r Hr).
  - intros Hs. apply Hiff in Hs. rewrite Hb in Hs.
    cbn [severity_breakdown normal] in Hs.
    destruct (filter (is_normal (rep_threshold rep)) (rep_all_results rep))
      as [| r rest] eqn:Hf; [congruence |].
    assert (Hr : In r (filter (is_normal (rep_threshold rep))
                         (rep_all_results rep)))
      by (rewrite Hf; now left).
    apply filter_In in Hr. destruct Hr as [_ Hr].
    unfold is_normal, in_range in Hr. apply andb_true_iff in Hr.
    destruct Hr as [Hlo Hhi]. eapply TierFacts.fle_flt_trans; eassumption.
Qed.

Lemma severity_partition_witness :
  exists rep,
    main Sample.float_plain Inputs.fs_short
      (Inputs.args_of Inputs.t100 None) [Inputs.host1] = Completed rep
    /\ list_sum (bucket_sizes (rep_breakdown rep))
       = List.length
           (filter (fun r => negb (PyFloat.is_nan (max_await r)))
              (rep_all_results rep)).
Proof.
  eexists. split; [vm_compute; reflexivity |].
  refine (proj1 (proj2 (proj2
            (severity_partition Sample.float_plain Inputs.fs_short
               (Inputs.args_of Inputs.t100 None) [Inputs.host1] _ _)))).
  vm_compute. reflexivity.
Defined.

(** ** Timestamp lines *)

(** What [match_prefix] accepts: the texts that start with one character
    of each class, in order. *)
Lemma match_prefix_spec pat : forall s,
  Str.match_prefix pat s = true
  <-> exists pre rest,
        s = (pre ++ rest)%string
        /\ Forall2 (fun (p : ascii -> bool) c => p c = true) pat
             (list_ascii_of_string pre).
Proof.
  induction pat as [| p pat IH]; intros s; cbn [Str.match_prefix].
  - split; [| reflexivity]. intros _. exists "", s. split; [reflexivity |].
    constructor.
  - destruct s as [| c s].
    + split; [discriminate |].
      intros (pre & rest & Heq & Hall). inversion Hall as [| ? x ? l Hp Hl Hx Hpre].
      destruct pre; [discriminate Hpre | discriminate Heq].
    + rewrite andb_true_iff, IH. split.
      * intros (Hp & pre & rest & -> & Hall).
        exists (String c pre), rest. split; [reflexivity |].
        now constructor.
      * intros (pre & rest & Heq & Hall).
        destruct pre as [| c' pre]; [inversion Hall |].
        cbn in Heq. injection Heq as -> ->.
        cbn [list_ascii_of_string] in Hall.
        inversion Hall as [| ? ? ? ? Hp Hl]; subst.
        split; [assumption |]. now exists pre, rest.
Qed.

Lemma match_prefix_weaken pat1 pat2 :
  Forall2 (fun p q : ascii -> bool => forall c, p c = true -> q c = true)
    pat1 pat2 ->
  forall s, Str.match_prefix pat1 s = true -> Str.match_prefix pat2 s = true.
Proof.
  induction 1 as [| p q pat1 pat2 Hpq _ IH]; intros s; [reflexivity |].
  cbn [Str.match_prefix]. destruct s as [| c s]; [discriminate |].
  rewrite !andb_true_iff. intros [Hp Hs]. split; [now apply Hpq | now apply IH].
Qed.

Lemma spec_timestamp_weaker s :
  Str.match_prefix spec_timestamp_re s = true ->
  Str.match_prefix timestamp_re s = true.
Proof.
  apply match_prefix_weaken. unfold spec_timestamp_re, timestamp_re.
  repeat (constructor; [try (intros c H; exact H) |]); try constructor.
  - intros c H. unfold apm. now rewrite H.
  - intros c H. unfold lit in H. apply Ascii.eqb_eq in H. now subst c.
Qed.

(** C7, as stated, fails: a line that ends in [MM] where [AM] or [PM] is
    expected is taken for a timestamp line all the same. *)
Lemma timestamp_line_counterexample :
  ~ (forall (float : string -> option pyfloat) filepath threshold line,
        (forall ts acc i,
            loop_body float filepath threshold (ts, acc) (i, line)
            = (clean line, acc))
        <-> Str.match_prefix spec_timestamp_re (clean line) = true).
Proof.
  intros H.
  destruct (H Sample.float_plain Inputs.host1 Inputs.t100
              "01/01/2024 00:00:00 MM") as [Hspec _].
  assert (Hm : Str.match_prefix spec_timestamp_re
                 (clean "01/01/2024 00:00:00 MM") = true).
  { apply Hspec. intros ts acc i. rewrite loop_body_eq.
    assert (Hre : Str.match_prefix timestamp_re
                    (clean "01/01/2024 00:00:00 MM") = true)
      by (vm_compute; reflexivity).
    unfold next_timestamp, emitted, candidate. rewrite Hre.
    cbn [negb andb]. now rewrite app_nil_r. }
  vm_compute in Hm. discriminate Hm.
Qed.

(** C7 (amended): the extractor takes a line for a timestamp line, setting
    the carried timestamp to its cleaned text and appending nothing, if and
    only if the cleaned text starts with two digits, a slash, two digits, a
    slash, four digits, a space, two digits, a colon, two digits, a colon,
    two digits, a space and two characters each of which is A, P or M; the
    texts that have AM or PM there are among them. *)
Theorem timestamp_line_iff
    (float : string -> option pyfloat) filepath threshold line :
  ((forall ts acc i,
       loop_body float filepath threshold (ts, acc) (i, line)
       = (clean line, acc))
   <-> Str.match_prefix timestamp_re (clean line) = true)
  /\ (Str.match_prefix timestamp_re (clean line) = true
      <-> exists pre rest,
            clean line = (pre ++ rest)%string
            /\ Forall2 (fun (p : ascii -> bool) c => p c = true)
                 timestamp_re (list_ascii_of_string pre))
  /\ (Str.match_prefix spec_timestamp_re (clean line) = true ->
      Str.match_prefix timestamp_re (clean line) = true).
Proof.
  split; [| split; [apply match_prefix_spec | apply spec_timestamp_weaker]].
  split.
  - intros H.
    destruct (Str.match_prefix timestamp_re (clean line)) eqn:Hre;
      [reflexivity |].
    pose proof (H "" [] 0) as H0. pose proof (H "a" [] 0) as H1.
    rewrite loop_body_eq in H0, H1. unfold next_timestamp in H0, H1.
    rewrite Hre in H0, H1.
    injection H0 as H0 _. injection H1 as H1 _. congruence.
  - intros Hre ts acc i. rewrite loop_body_eq.
    unfold next_timestamp, emitted, candidate. rewrite Hre.
    cbn [negb andb]. now rewrite app_nil_r.
Qed.

Lemma timestamp_line_iff_witness :
  Str.match_prefix spec_timestamp_re
    (clean ("12|07/01/2024 03:00:00 PM" ++ Inputs.nl)%string) = true
  /\ Str.match_prefix timestamp_re
       (clean ("12|07/01/2024 03:00:00 PM" ++ Inputs.nl)%string) = true.
Proof.
  assert (Hspec : Str.match_prefix spec_timestamp_re
                    (clean ("12|07/01/2024 03:00:00 PM" ++ Inputs.nl)%string)
                  = true) by (vm_compute; reflexivity).
  split; [exact Hspec |].
  exact (proj2 (proj2
           (timestamp_line_iff Sample.float_plain Inputs.host1 Inputs.t100
              ("12|07/01/2024 03:00:00 PM" ++ Inputs.nl)%string)) Hspec).
Defined.

(** ** The scenarios of the specification *)

(** A timestamp line followed by a row of sixteen tokens, at threshold
    100: one entry, of tier Medium High. *)
Example scenario_one_row :
  map (fun r => (device r, r_await r, w_await r, timestamp r,
                 get_severity_text (max_await r)))
    (scan_lines Sample.float_plain Inputs.host1 Inputs.t100
       [("07/01/2024 03:00:00 PM" ++ Inputs.nl)%string;
        "sda 1.0 2.0 3.0 4.0 0.0 0.0 0.0 0.0 150.5 12.0 0.5 4.0 4.0 0.1 20.0"])
  = [("sda", FFin (1505 # 10), FFin (120 # 10), "07/01/2024 03:00:00 PM",
      MEDIUM_HIGH)].
Proof. vm_compute. reflexivity. Qed.

(** A row of ten tokens is dropped whatever the threshold. *)
Example scenario_ten_tokens threshold :
  scan_lines Sample.float_plain Inputs.host1 threshold
    ["sdb 1.0 2.0 3.0 4.0 0.0 0.0 0.0 0.0 900.0"] = [].
Proof. reflexivity. Qed.

(** Two hosts with peaks 300 and 6000: the entry of 6000 comes first and
    each host has its group. *)
Example scenario_two_hosts :
  match
    main Sample.float_plain
      (Inputs.fs_of [(Inputs.host1, [Inputs.row "sda" "300" "1.0"]);
                     (Inputs.host2, [Inputs.row "sda" "6000" "1.0"])])
      (Inputs.args_of Inputs.t100 None) [Inputs.host2; Inputs.host1]
  with
  | Completed rep =>
      map (fun r => (filename r, r_await r)) (rep_all_results rep)
      = [(Inputs.host2, FFin (6000 # 1)); (Inputs.host1, FFin (300 # 1))]
      /\ map (fun g => (fst g, List.length (snd g))) (rep_by_server rep)
         = [("10.0.0.2", 1); ("10.0.0.1", 1)]
  | _ => False
  end.
Proof. vm_compute. split; reflexivity. Qed.

(** No input file: an outcome of its own, no failure. *)
Example scenario_no_files (float : string -> option pyfloat) fs a :
  main float fs a [] = NoInputFiles.
Proof. reflexivity. Qed.

(** * Further properties of the extractor *)

Lemma split_ws_tokens s : Forall is_token (Str.split_ws s).
Proof.
  induction s as [| c s IH]; cbn [Str.split_ws]; [constructor |].
  destruct (Str.isspace c) eqn:Hc; [exact IH |].
  destruct s as [| c' s'].
  - repeat constructor; [discriminate |].
    cbn [Str.all_chars]. now rewrite Hc.
  - destruct (Str.isspace c') eqn:Hc'.
    + constructor; [| exact IH].
      split; [discriminate |]. cbn [Str.all_chars]. now rewrite Hc.
    + destruct (Str.split_ws (String c' s')) as [| h t] eqn:Hs.
      * repeat constructor; [discriminate |].
        cbn [Str.all_chars]. now rewrite Hc.
      * inversion IH as [| ? ? [_ Hh] Ht]; subst.
        constructor; [| exact Ht].
        split; [discriminate |]. cbn [Str.all_chars]. now rewrite Hc, Hh.
Qed.

Section EntryFacts.
Variable float : string -> option pyfloat.

(** The entry a line yields, field by field. *)
Lemma candidate_shape filepath ts i line r :
  candidate float filepath ts i line = Some r ->
  original_line r = Str.strip line
  /\ clean_line r = clean line
  /\ all_parts r = Str.split_ws (clean line)
  /\ device r = nth 0 (Str.split_ws (clean line)) ""
  /\ is_data_line (clean line) = true
  /\ is_device_row (Str.split_ws (clean line)) = true.
Proof.
  unfold candidate.
  destruct (Str.match_prefix timestamp_re (clean line)); cbn [negb andb];
    [discriminate |].
  destruct (is_data_line (clean line)); cbn [andb]; [| discriminate].
  destruct (is_device_row (Str.split_ws (clean line))); [| discriminate].
  destruct (float (nth 9 (Str.split_ws (clean line)) "")); [| discriminate].
  destruct (float (nth 10 (Str.split_ws (clean line)) ""));
    [| discriminate].
  intros [= <-]. cbn. repeat split.
Qed.

End EntryFacts.

(** X1: every entry the extractor returns is read off one line of the
    file, the line its number names: the raw and cleaned texts are those of
    that line, the fields are the tokens of the cleaned text, at least
    sixteen of them and each free of whitespace, the device is the first
    token and is neither empty nor [Linux], the two awaits are the
    conversions of tokens 9 and 10, and the cleaned text is neither empty,
    nor a header, nor a timestamp. *)
Theorem entry_invariants
    (float : string -> option pyfloat) fs filepath threshold results r :
  check_high_await_times float fs filepath threshold = inr results ->
  In r results ->
  exists lines line,
    fs filepath = Some lines
    /\ 1 <= line_number r <= List.length lines
    /\ nth_error lines (line_number r - 1) = Some line
    /\ full_filepath r = filepath
    /\ filename r = Str.basename filepath
    /\ original_line r = Str.strip line
    /\ clean_line r = clean line
    /\ all_parts r = Str.split_ws (clean_line r)
    /\ 16 <= List.length (all_parts r)
    /\ Forall is_token (all_parts r)
    /\ device r = nth 0 (all_parts r) ""
    /\ device r <> "Linux" /\ device r <> ""
    /\ float (nth 9 (all_parts r) "") = Some (r_await r)
    /\ float (nth 10 (all_parts r) "") = Some (w_await r)
    /\ clean_line r <> ""
    /\ Str.startswith "Device" (clean_line r) = false
    /\ Str.startswith "avg-cpu" (clean_line r) = false
    /\ Str.match_prefix timestamp_re (clean_line r) = false.
Proof.
  unfold check_high_await_times.
  destruct (fs filepath) as [lines |] eqn:Hfs; [| discriminate].
  intros [= <-] Hin. apply scan_lines_In in Hin.
  destruct Hin as (pre & line & post & -> & Hc & _).
  pose proof (candidate_fields _ _ _ _ _ _ Hc)
    as (Hn & _ & Hpath & Hname & Hts & Hlen & Hr & Hw).
  pose proof (candidate_shape _ _ _ _ _ _ Hc)
    as (Horig & Hclean & Hparts & Hdev & Hdata & Hrow).
  exists (pre ++ line :: post), line.
  rewrite Hclean, Hparts, Hdev, Hn, length_app. cbn [List.length].
  unfold is_data_line in Hdata. apply andb_true_iff in Hdata.
  destruct Hdata as [Hdata Hcpu]. apply andb_true_iff in Hdata.
  destruct Hdata as [Htruthy Hdevice].
  apply negb_true_iff in Hcpu, Hdevice.
  unfold is_device_row in Hrow. apply andb_true_iff in Hrow.
  destruct Hrow as [_ Hbanner]. apply negb_true_iff in Hbanner.
  cbn [Str.mem existsb] in Hbanner. apply orb_false_iff in Hbanner.
  destruct Hbanner as [Hlinux Hempty]. apply orb_false_iff in Hempty.
  destruct Hempty as [Hempty _].
  apply String.eqb_neq in Hlinux, Hempty.
  repeat split; try assumption; try lia; try apply split_ws_tokens.
  - replace (List.length pre + 1 - 1) with (List.length pre + 0) by lia.
    now rewrite nth_error_app2, Nat.add_comm, Nat.add_sub by lia.
  - intros Heq. rewrite Heq in Htruthy. discriminate Htruthy.
Qed.

Lemma entry_invariants_witness :
  check_high_await_times Sample.float_plain Inputs.fs1 Inputs.host1
    Inputs.t100 = inr Inputs.host1_results
  /\ 16 <= List.length
             (all_parts (hd (mk_entry "" "" 0 "" "" "" FNaN FNaN "" [])
                           Inputs.host1_results)).
Proof.
  split; [vm_compute; reflexivity |].
  destruct (entry_invariants Sample.float_plain Inputs.fs1 Inputs.host1
              Inputs.t100 Inputs.host1_results
              (hd (mk_entry "" "" 0 "" "" "" FNaN FNaN "" [])
                 Inputs.host1_results)
              ltac:(vm_compute; reflexivity)
              ltac:(vm_compute; left; reflexivity))
    as (lines & line & _ & _ & _ & _ & _ & _ & _ & _ & H16 & _).
  exact H16.
Defined.

Section OrderFacts.
Variable float : string -> option pyfloat.
Variables (filepath : string) (threshold : pyfloat).

Lemma emitted_cases ts i line :
  emitted float filepath threshold ts i line = []
  \/ exists e, emitted float filepath threshold ts i line = [e]
               /\ line_number e = i + 1.
Proof.
  unfold emitted.
  destruct (candidate float filepath ts i line) as [e |] eqn:Hc; [| now left].
  destruct (exceeds threshold e); [| now left].
  right. exists e. split; [reflexivity |].
  now apply candidate_fields in Hc.
Qed.

Lemma records_from_increasing lines : forall ts i,
  StronglySorted lt
    (map line_number (records_from float filepath threshold ts i lines)).
Proof.
  induction lines as [| line rest IH]; intros ts i; cbn [records_from map];
    [constructor |].
  rewrite map_app. apply StronglySorted_app; [| apply IH |].
  - destruct (emitted_cases ts i line) as [-> | (e & -> & _)];
      repeat constructor.
  - intros x y Hx Hy. apply in_map_iff in Hy.
    destruct Hy as (r & <- & Hr). apply records_from_line_number in Hr.
    destruct (emitted_cases ts i line) as [He | (e & He & Hn)];
      rewrite He in Hx; [destruct Hx |].
    destruct Hx as [<- | []]. lia.
Qed.

End OrderFacts.

(** X2: the entries come out in file order, their line numbers strictly
    increasing; no line yields two entries. *)
Theorem line_numbers_increase
    (float : string -> option pyfloat) fs filepath threshold results :
  check_high_await_times float fs filepath threshold = inr results ->
  StronglySorted lt (map line_number results)
  /\ NoDup (map line_number results).
Proof.
  unfold check_high_await_times.
  destruct (fs filepath) as [lines |]; [| discriminate].
  intros [= <-]. rewrite scan_lines_eq.
  pose proof (records_from_increasing float filepath threshold lines "" 0)
    as Hs.
  split; [exact Hs |].
  induction Hs as [| x l _ IH Hall]; constructor; [| exact IH].
  intros Hin. rewrite Forall_forall in Hall. apply Hall in Hin. lia.
Qed.

Lemma line_numbers_increase_witness :
  StronglySorted lt (map line_number Inputs.host1_results).
Proof.
  apply (line_numbers_increase Sample.float_plain Inputs.fs1 Inputs.host1
           Inputs.t100 Inputs.host1_results).
  vm_compute. reflexivity.
Defined.

(** X3: lines appended to a file never change the entries of the lines
    before them: the output for the longer file starts with the output for
    the shorter one, and what follows comes from the appended lines. *)
Theorem appended_lines_extend
    (float : string -> option pyfloat) fs1 fs2 filepath threshold pre post :
  fs1 filepath = Some pre ->
  fs2 filepath = Some (pre ++ post) ->
  exists results rest,
    check_high_await_times float fs1 filepath threshold = inr results
    /\ check_high_await_times float fs2 filepath threshold
       = inr (results ++ rest)
    /\ Forall (fun r => List.length pre < line_number r) rest.
Proof.
  intros H1 H2. unfold check_high_await_times. rewrite H1, H2.
  exists (scan_lines float filepath threshold pre),
    (records_from float filepath threshold (carried "" pre)
       (List.length pre) post).
  split; [reflexivity |]. split.
  - now rewrite !scan_lines_eq, records_from_app.
  - apply Forall_forall. intros r Hr.
    apply records_from_line_number in Hr. lia.
Qed.

Lemma appended_lines_extend_witness :
  exists results rest,
    check_high_await_times Sample.float_plain
      (Inputs.fs_of [(Inputs.host1, firstn 2 Inputs.host1_lines)])
      Inputs.host1 Inputs.t100 = inr results
    /\ check_high_await_times Sample.float_plain Inputs.fs1 Inputs.host1
         Inputs.t100 = inr (results ++ rest)
    /\ Forall (fun r => 2 < line_number r) rest.
Proof.
  apply (appended_lines_extend Sample.float_plain
           (Inputs.fs_of [(Inputs.host1, firstn 2 Inputs.host1_lines)])
           Inputs.fs1 Inputs.host1 Inputs.t100
           (firstn 2 Inputs.host1_lines) (skipn 2 Inputs.host1_lines));
    vm_compute; reflexivity.
Defined.

(** X6: at a threshold that is NaN or plus infinity no comparison of line
    45 holds and the extractor returns no entry, whatever the file. *)
Theorem unreachable_threshold
    (float : string -> option pyfloat) fs filepath threshold results :
  threshold = FNaN \/ threshold = FInf false ->
  check_high_await_times float fs filepath threshold = inr results ->
  results = [].
Proof.
  intros Ht. unfold check_high_await_times.
  destruct (fs filepath) as [lines |]; [| discriminate].
  intros [= <-].
  destruct (scan_lines float filepath threshold lines) as [| r rest] eqn:Hs;
    [reflexivity | exfalso].
  assert (Hin : In r (scan_lines float filepath threshold lines))
    by (rewrite Hs; now left).
  apply scan_lines_In in Hin.
  destruct Hin as (_ & _ & _ & _ & _ & Hex). unfold exceeds in Hex.
  destruct Ht as [-> | ->]; revert Hex; generalize (r_await r), (w_await r);
    clear; intros a b H; apply orb_true_iff in H; destruct H;
    FloatFacts.fsolve.
Qed.

Lemma unreachable_threshold_witness :
  check_high_await_times Sample.float_plain Inputs.fs1 Inputs.host1 FNaN
  = inr [].
Proof.
  assert (Hrun : exists results,
             check_high_await_times Sample.float_plain Inputs.fs1
               Inputs.host1 FNaN = inr results)
    by (eexists; vm_compute; reflexivity).
  destruct Hrun as [results Hrun]. rewrite Hrun. f_equal.
  apply (unreachable_threshold Sample.float_plain Inputs.fs1 Inputs.host1
           FNaN results); [now left | exact Hrun].
Defined.

(** ** Line-number prefixes and noise lines *)

Module StrFacts.
Import Str.

Lemma split_nonempty sep s : split sep s <> [].
Proof.
  destruct s as [| c s]; cbn [split]; [discriminate |].
  destruct (Ascii.eqb c sep); [discriminate |].
  destruct (split sep s); discriminate.
Qed.

Lemma concat_cons sep x y l :
  concat sep (x :: y :: l) = (x ++ sep ++ concat sep (y :: l))%string.
Proof. reflexivity. Qed.

(** Joining what a split gave returns the text. *)
Lemma join_split sep s : join (String sep "") (split sep s) = s.
Proof.
  unfold join. induction s as [| c s IH]; [reflexivity |].
  cbn [split]. destruct (Ascii.eqb c sep) eqn:E.
  - apply Ascii.eqb_eq in E. subst c.
    destruct (split sep s) as [| h t] eqn:Hs;
      [now apply split_nonempty in Hs |].
    rewrite concat_cons, IH. reflexivity.
  - destruct (split sep s) as [| h t] eqn:Hs;
      [now apply split_nonempty in Hs |].
    destruct t as [| h' t].
    + change (concat (String sep "") [h]) with h in IH.
      change (concat (String sep "") [String c h]) with (String c h).
      now rewrite IH.
    + rewrite concat_cons in *. cbn [append]. now rewrite <- IH.
Qed.

Lemma split_app sep d rest :
  contains sep d = false ->
  split sep (d ++ String sep rest) = d :: split sep rest.
Proof.
  induction d as [| c d IH]; intros H; cbn [append split].
  - now rewrite Ascii.eqb_refl.
  - cbn [contains] in H. apply orb_false_iff in H. destruct H as [Hc Hd].
    rewrite Ascii.eqb_sym, Hc, (IH Hd). reflexivity.
Qed.

Lemma contains_app sep d rest : contains sep (d ++ String sep rest) = true.
Proof.
  induction d as [| c d IH]; cbn [append contains].
  - now rewrite Ascii.eqb_refl.
  - rewrite IH. apply orb_true_r.
Qed.

Lemma digits_no_bar d :
  all_chars isdigit_char d = true -> contains "|" d = false.
Proof.
  induction d as [| c d IH]; [reflexivity |].
  cbn [all_chars contains]. intros H. apply andb_true_iff in H.
  destruct H as [Hc Hd]. rewrite (IH Hd), orb_false_r.
  destruct (Ascii.eqb "|" c) eqn:E; [| reflexivity].
  apply Ascii.eqb_eq in E. subst c. vm_compute in Hc. discriminate Hc.
Qed.

Lemma rstrip_head c s c' s' : rstrip (String c s) = String c' s' -> c' = c.
Proof.
  cbn [rstrip]. destruct (rstrip s).
  - destruct (isspace c); [discriminate | now intros [= <- _]].
  - now intros [= <- _].
Qed.

Lemma lstrip_head s c t : lstrip s = String c t -> isspace c = false.
Proof.
  induction s as [| c0 s IH]; cbn [lstrip]; [discriminate |].
  destruct (isspace c0) eqn:E; [exact IH |]. now intros [= <- _].
Qed.

(** A stripped text does not start with whitespace. *)
Lemma strip_head s c t : strip s = String c t -> isspace c = false.
Proof.
  unfold strip. destruct (lstrip s) as [| c0 t0] eqn:Hl; [discriminate |].
  intros H. apply rstrip_head in H. subst c.
  now apply lstrip_head in Hl.
Qed.

Lemma split_ws_head c t :
  isspace c = false ->
  exists tok, nth 0 (split_ws (String c t)) "" = String c tok.
Proof.
  intros Hc. cbn [split_ws]. rewrite Hc.
  destruct t as [| c' t']; [now exists "" |].
  destruct (isspace c'); [now exists "" |].
  destruct (split_ws (String c' t')) as [| h tl]; [now exists "" |].
  now exists h.
Qed.

Lemma startswith_head p ps s :
  startswith (String p ps) s = true -> exists t, s = String p t.
Proof.
  unfold startswith. destruct s as [| c s]; cbn [prefix]; [discriminate |].
  destruct (ascii_dec p c) as [-> |]; [| discriminate]. now exists s.
Qed.

End StrFacts.

(** X4: a line that starts with digits and a bar is cleaned to what
    follows the first bar, stripped; later bars stay in the text. *)
Theorem numbered_line_clean (digits rest : string) :
  Str.isdigit digits = true ->
  clean (digits ++ String "|" rest) = Str.strip rest.
Proof.
  intros Hd. unfold clean.
  assert (Hbar : Str.contains "|" digits = false).
  { apply StrFacts.digits_no_bar. unfold Str.isdigit in Hd.
    destruct digits; [discriminate | exact Hd]. }
  rewrite StrFacts.contains_app, StrFacts.split_app by assumption.
  cbn [hd tl]. rewrite Hd. cbn [andb].
  change "|" with (String "|"%char "") at 1.
  now rewrite StrFacts.join_split.
Qed.

Lemma numbered_line_clean_witness :
  clean ("12" ++ String "|" "  sda|x  ") = Str.strip "  sda|x  ".
Proof.
  apply (numbered_line_clean "12" "  sda|x  "). reflexivity.
Defined.

Lemma noise_not_timestamp s :
  s = "" \/ Str.startswith "Device" s = true
  \/ Str.startswith "avg-cpu" s = true ->
  Str.match_prefix timestamp_re s = false.
Proof.
  intros [-> | [H | H]]; [reflexivity | |];
    apply StrFacts.startswith_head in H; destruct H as [t ->]; reflexivity.
Qed.

Lemma banner_not_timestamp line :
  nth 0 (Str.split_ws (clean line)) "" = "Linux" ->
  Str.match_prefix timestamp_re (clean line) = false.
Proof.
  intros H. destruct (clean line) as [| c t] eqn:Hc; [reflexivity |].
  assert (Hsp : Str.isspace c = false).
  { unfold clean in Hc. now apply StrFacts.strip_head in Hc. }
  destruct (StrFacts.split_ws_head c t Hsp) as [tok Htok].
  rewrite Htok in H. injection H as -> _. reflexivity.
Qed.

(** X5: an empty line, a header line that starts with [Device] or
    [avg-cpu] and a banner line whose first token is [Linux] yield no entry
    and leave the carried timestamp alone: the output is that of the file
    with the line emptied. *)
Theorem noise_line_skipped
    (float : string -> option pyfloat) fs filepath threshold pre line post :
  fs filepath = Some (pre ++ line :: post) ->
  clean line = ""
  \/ Str.startswith "Device" (clean line) = true
  \/ Str.startswith "avg-cpu" (clean line) = true
  \/ nth 0 (Str.split_ws (clean line)) "" = "Linux" ->
  check_high_await_times float fs filepath threshold
  = inr (scan_lines float filepath threshold (pre ++ "" :: post)).
Proof.
  intros Hfs Hnoise. unfold check_high_await_times. rewrite Hfs. f_equal.
  assert (Hts : Str.match_prefix timestamp_re (clean line) = false).
  { destruct Hnoise as [H | [H | [H | H]]];
      [apply noise_not_timestamp; now left
      | apply noise_not_timestamp; right; now left
      | apply noise_not_timestamp; right; now right
      | now apply banner_not_timestamp]. }
  apply records_from_skip; [exact Hts |].
  unfold candidate. rewrite Hts. cbn [negb andb].
  destruct Hnoise as [H | [H | [H | H]]].
  - now rewrite H.
  - unfold is_data_line. rewrite H. cbn [negb andb].
    now rewrite andb_false_r.
  - unfold is_data_line. rewrite H. cbn [negb andb].
    now rewrite andb_false_r.
  - destruct (is_data_line (clean line)); [| reflexivity]. cbn [andb].
    unfold is_device_row. rewrite H. cbn [Str.mem existsb String.eqb].
    now rewrite andb_false_r.
Qed.

Lemma noise_line_skipped_witness :
  check_high_await_times Sample.float_plain
    (Inputs.fs_of
       [(Inputs.host1,
         [Inputs.row "sda" "300" "1.0";
          "Linux 5.4.0 (host) 07/01/2024 _x86_64_ (8 CPU) a b c d e f g h i j";
          Inputs.row "sdb" "400" "1.0"])])
    Inputs.host1 Inputs.t100
  = inr (scan_lines Sample.float_plain Inputs.host1 Inputs.t100
           ([Inputs.row "sda" "300" "1.0"] ++ ""
            :: [Inputs.row "sdb" "400" "1.0"])).
Proof.
  apply (noise_line_skipped Sample.float_plain _ Inputs.host1 Inputs.t100
           [Inputs.row "sda" "300" "1.0"]
           "Linux 5.4.0 (host) 07/01/2024 _x86_64_ (8 CPU) a b c d e f g h i j"
           [Inputs.row "sdb" "400" "1.0"]).
  - vm_compute. reflexivity.
  - right. right. right. vm_compute. reflexivity.
Defined.

(** * Further properties of the run *)

(** ** The order of strings *)

Module StringOrder.

Lemma compare_as_OT a b : String.compare a b = OrdersEx.String_as_OT.compare a b.
Proof.
  reflexivity.
Qed.

Lemma ltb_lt a b : String.ltb a b = true <-> OrdersEx.String_as_OT.lt a b.
Proof.
  unfold String.ltb, OrdersEx.String_as_OT.lt. rewrite compare_as_OT.
  destruct (OrdersEx.String_as_OT.compare a b); split; congruence.
Qed.

Lemma ltb_irrefl a : String.ltb a a = false.
Proof.
  destruct (String.ltb a a) eqn:E; [| reflexivity].
  apply ltb_lt in E. now apply StrictOrder_Irreflexive in E.
Qed.

Lemma ltb_trans a b c :
  String.ltb a b = true -> String.ltb b c = true -> String.ltb a c = true.
Proof.
  rewrite !ltb_lt. apply StrictOrder_Transitive.
Qed.

Lemma ltb_asym a b : String.ltb a b = true -> String.ltb b a = false.
Proof.
  intros H. destruct (String.ltb b a) eqn:E; [| reflexivity].
  pose proof (ltb_trans _ _ _ H E) as Haa. now rewrite ltb_irrefl in Haa.
Qed.

Lemma ltb_total a b :
  String.ltb a b = false -> String.ltb b a = false -> a = b.
Proof.
  unfold String.ltb. pose proof (String.compare_antisym a b) as Hanti.
  destruct (String.compare a b) eqn:E.
  - intros _ _. now apply String.compare_eq_iff.
  - discriminate.
  - intros _. destruct (String.compare b a); cbn in Hanti;
      discriminate.
Qed.

(** [a <= b] and [b <= c] give [a <= c], with [x <= y] read as the
    failure of [y < x]. *)
Lemma le_trans a b c :
  String.ltb b a = false -> String.ltb c b = false -> String.ltb c a = false.
Proof.
  intros Hab Hbc. destruct (String.ltb c a) eqn:Hca; [| reflexivity].
  destruct (String.ltb a b) eqn:E.
  - pose proof (ltb_trans _ _ _ Hca E) as H. congruence.
  - pose proof (ltb_total _ _ E Hab). subst b. congruence.
Qed.

End StringOrder.

Section KeyStringSort.
Context {A : Type} (key : A -> string).

Local Abbreviation klt := (fun x y : A => String.ltb (key x) (key y)).
Local Abbreviation kle := (fun x y : A => String.ltb (key y) (key x) = false).

Lemma insert_key_sorted x l :
  StronglySorted kle l -> StronglySorted kle (PySort.insert klt x l).
Proof.
  induction 1 as [| y l Hs IH Hall]; cbn [PySort.insert].
  - repeat constructor.
  - destruct (String.ltb (key y) (key x)) eqn:Hlt.
    + constructor; [exact IH |].
      apply Forall_forall. intros z Hz.
      apply (Permutation_in _ (insert_perm klt x l)) in Hz.
      destruct Hz as [<- | Hz].
      * now apply StringOrder.ltb_asym.
      * rewrite Forall_forall in Hall. now apply Hall.
    + constructor; [now constructor |].
      constructor; [exact Hlt |].
      apply Forall_forall. intros z Hz. rewrite Forall_forall in Hall.
      eapply StringOrder.le_trans; [exact Hlt | now apply Hall].
Qed.

Lemma sort_asc_key_sorted l : StronglySorted kle (PySort.sort_asc klt l).
Proof.
  induction l as [| x l IH]; cbn [PySort.sort_asc fold_right];
    [constructor | now apply insert_key_sorted].
Qed.

End KeyStringSort.

(** Two sorted lists of strings with the same items are the same list. *)
Lemma sorted_strings_unique (l1 : list string) : forall l2,
  StronglySorted (fun x y => String.ltb y x = false) l1 ->
  StronglySorted (fun x y => String.ltb y x = false) l2 ->
  Permutation l1 l2 -> l1 = l2.
Proof.
  induction l1 as [| x l1 IH]; intros l2 H1 H2 Hp.
  - apply Permutation_nil in Hp. now subst.
  - destruct l2 as [| y l2];
      [apply Permutation_sym, Permutation_nil in Hp; discriminate |].
    apply StronglySorted_inv in H1, H2.
    destruct H1 as [H1 Hx], H2 as [H2 Hy].
    rewrite Forall_forall in Hx, Hy.
    assert (Hxy : x = y).
    { assert (Hin1 : In y (x :: l1))
        by (eapply Permutation_in; [symmetry; exact Hp | now left]).
      assert (Hin2 : In x (y :: l2))
        by (eapply Permutation_in; [exact Hp | now left]).
      destruct Hin1 as [-> | Hin1]; [reflexivity |].
      destruct Hin2 as [-> | Hin2]; [reflexivity |].
      apply StringOrder.ltb_total; [apply (Hy x Hin2) | apply (Hx y Hin1)]. }
    subst y. f_equal. apply IH; try assumption.
    now apply Permutation_cons_inv in Hp.
Qed.

Lemma sorted_files_perm l1 l2 :
  Permutation l1 l2 ->
  PySort.sort_asc String.ltb l1 = PySort.sort_asc String.ltb l2.
Proof.
  intros Hp. apply sorted_strings_unique.
  - apply (sort_asc_key_sorted (fun s : string => s)).
  - apply (sort_asc_key_sorted (fun s : string => s)).
  - rewrite !sort_asc_perm. exact Hp.
Qed.

(** X9: the run does not depend on the order in which [glob] lists the
    files. *)
Theorem glob_order_irrelevant
    (float : string -> option pyfloat) fs a files1 files2 :
  Permutation files1 files2 ->
  main float fs a files1 = main float fs a files2.
Proof.
  intros Hp. unfold main. rewrite (sorted_files_perm _ _ Hp).
  destruct files1 as [| f1 r1], files2 as [| f2 r2]; try reflexivity.
  - apply Permutation_nil in Hp. discriminate Hp.
  - apply Permutation_sym, Permutation_nil in Hp. discriminate Hp.
Qed.

Lemma glob_order_irrelevant_witness :
  main Sample.float_plain Inputs.fs2 (Inputs.args_of Inputs.t100 None)
    [Inputs.host1; Inputs.host2]
  = main Sample.float_plain Inputs.fs2 (Inputs.args_of Inputs.t100 None)
      [Inputs.host2; Inputs.host1].
Proof.
  apply (glob_order_irrelevant Sample.float_plain Inputs.fs2
           (Inputs.args_of Inputs.t100 None)).
  apply perm_swap.
Defined.

(** ** The loop over the files *)

Section CollectFacts.
Variable float : string -> option pyfloat.
Variable fs : string -> option (list string).

Lemma process_files_readable threshold files : forall acc,
  (forall p, In p files -> fs p <> None) ->
  process_files float fs threshold files acc
  = inr (acc ++ flat_map (entries_of float fs threshold) files).
Proof.
  induction files as [| p rest IH]; intros acc Hall;
    cbn [process_files flat_map].
  - now rewrite app_nil_r.
  - unfold check_high_await_times, entries_of at 1.
    destruct (fs p) as [lines |] eqn:Hp;
      [| now apply (Hall p (or_introl eq_refl)) in Hp].
    rewrite IH by (intros q Hq; apply Hall; now right).
    now rewrite app_assoc.
Qed.

Lemma files_readable_dec files :
  (forall p, In p files -> fs p <> None)
  \/ exists p, In p files /\ fs p = None.
Proof.
  induction files as [| p rest [IH | (q & Hq & Hnone)]].
  - left. intros p [].
  - destruct (fs p) eqn:Hp.
    + left. intros q [<- | Hq]; [congruence | now apply IH].
    + right. exists p. split; [now left | assumption].
  - right. exists q. split; [now right | assumption].
Qed.

End CollectFacts.

(** X7: the loop over the files returns the outputs of the extractor for
    the files, concatenated in the order of the list, when every file can
    be read; it raises the error of [open] when one cannot, and then
    returns nothing of the files read before. *)
Theorem process_files_concat
    (float : string -> option pyfloat) fs threshold files :
  match process_files float fs threshold files [] with
  | inr all_results =>
      (forall p, In p files -> fs p <> None)
      /\ all_results = flat_map (entries_of float fs threshold) files
  | inl e => e = OSError /\ exists p, In p files /\ fs p = None
  end.
Proof.
  destruct (files_readable_dec fs files) as [Hall | (p & Hp & Hnone)].
  - rewrite (process_files_readable float fs threshold files [] Hall).
    now split.
  - rewrite (process_files_unreadable float fs threshold files [] p Hp Hnone).
    split; [reflexivity | now exists p].
Qed.

(** ** The outcomes of a run *)

Lemma with_servers_total l :
  (forall r, In r l -> exists s, server_of r = inr s) ->
  exists rows, with_servers l = inr rows.
Proof.
  induction l as [| e l IH]; intros H; cbn [with_servers]; [now exists [] |].
  destruct (H e (or_introl eq_refl)) as [s ->].
  destruct IH as [rows ->]; [intros r Hr; apply H; now right |].
  now eexists.
Qed.

Lemma group_by_server_total l : forall d,
  (forall r, In r l -> exists s, server_of r = inr s) ->
  exists by_server, group_by_server l d = inr by_server.
Proof.
  induction l as [| e l IH]; intros d H; cbn [group_by_server];
    [now exists d |].
  destruct (H e (or_introl eq_refl)) as [s ->].
  apply IH. intros r Hr. apply H. now right.
Qed.

Lemma server_of_cases e :
  (exists s, server_of e = inr s
             /\ 2 <= List.length (Str.split "-" (filename e)))
  \/ (server_of e = inl IndexError
      /\ List.length (Str.split "-" (filename e)) < 2).
Proof.
  unfold server_of.
  destruct (nth_error (Str.split "-" (filename e)) 1) as [s |] eqn:E.
  - left. exists s. split; [reflexivity |].
    assert (1 < List.length (Str.split "-" (filename e)))
      by (apply nth_error_Some; congruence).
    lia.
  - right. split; [reflexivity |]. apply nth_error_None in E. lia.
Qed.

Lemma servers_dec l :
  (forall r, In r l -> exists s, server_of r = inr s)
  \/ exists r, In r l /\ List.length (Str.split "-" (filename r)) < 2.
Proof.
  induction l as [| e l [IH | (r & Hr & Hshort)]].
  - left. intros r [].
  - destruct (server_of_cases e) as [(s & Hs & _) | [_ Hshort]].
    + left. intros r [<- | Hr]; [now exists s | now apply IH].
    + right. exists e. split; [now left | assumption].
  - right. exists r. split; [now right | assumption].
Qed.

Lemma slice_to_incl {A : Type} (l : list A) n x :
  In x (slice_to l n) -> In x l.
Proof.
  unfold slice_to.
  destruct (0 <=? n)%Z; intros H;
    match type of H with
    | In _ (firstn ?k _) => rewrite <- (firstn_skipn k l)
    end; apply in_or_app; now left.
Qed.

Section MainSteps.
Variable float : string -> option pyfloat.
Variable fs : string -> option (list string).
Variables (a : Args) (iostat_files : list string).
Hypothesis some_file : iostat_files <> [].

Lemma main_raises_read e :
  process_files float fs (effective_threshold a)
    (PySort.sort_asc String.ltb iostat_files) [] = inl e ->
  main float fs a iostat_files = Raised e.
Proof.
  intros Hrun. unfold main.
  destruct iostat_files; [congruence |]. now rewrite Hrun.
Qed.

Lemma main_no_match :
  process_files float fs (effective_threshold a)
    (PySort.sort_asc String.ltb iostat_files) [] = inr [] ->
  main float fs a iostat_files = NoMatchingRecords.
Proof.
  intros Hrun. unfold main.
  destruct iostat_files; [congruence |]. now rewrite Hrun.
Qed.

Lemma main_raises_group unsorted e :
  process_files float fs (effective_threshold a)
    (PySort.sort_asc String.ltb iostat_files) [] = inr unsorted ->
  unsorted <> [] ->
  group_by_server (sort_results unsorted) [] = inl e ->
  main float fs a iostat_files = Raised e.
Proof.
  intros Hrun Hne Hg. unfold main.
  destruct iostat_files; [congruence |]. rewrite Hrun.
  destruct unsorted; [congruence |]. now rewrite Hg.
Qed.

Lemma main_completes unsorted :
  process_files float fs (effective_threshold a)
    (PySort.sort_asc String.ltb iostat_files) [] = inr unsorted ->
  unsorted <> [] ->
  (forall r, In r (sort_results unsorted) -> exists s, server_of r = inr s) ->
  exists rep, main float fs a iostat_files = Completed rep.
Proof.
  intros Hrun Hne Hservers. unfold main.
  destruct iostat_files; [congruence |]. rewrite Hrun.
  destruct unsorted as [| r0 rest]; [congruence |].
  set (all_results := sort_results (r0 :: rest)) in *.
  destruct (group_by_server_total all_results [] Hservers)
    as [by_server ->].
  destruct (with_servers_total
              (slice_to all_results (display_limit a all_results)))
    as [table ->];
    [intros r Hr; apply Hservers; now apply slice_to_incl in Hr |].
  destruct (with_servers_total
              (if (display_limit a all_results =? 0)%Z then all_results
               else slice_to all_results (display_limit a all_results)))
    as [rows ->].
  { intros r Hr. apply Hservers.
    destruct (display_limit a all_results =? 0)%Z;
      [exact Hr | now apply slice_to_incl in Hr]. }
  destruct (args_detailed a); eexists; reflexivity.
Qed.

End MainSteps.

(** X8: a run ends in exactly one of five ways, decided by the files:
    no file at all; an unreadable file; files that are all readable and
    yield no entry; an entry whose file name has fewer than two
    dash-delimited tokens; or a report.  The entries are those of the
    files, at the threshold in force. *)
Theorem run_outcomes
    (float : string -> option pyfloat) fs a iostat_files :
  let found := flat_map (entries_of float fs (effective_threshold a))
                 iostat_files in
  (iostat_files = [] /\ main float fs a iostat_files = NoInputFiles)
  \/ ((exists p, In p iostat_files /\ fs p = None)
      /\ main float fs a iostat_files = Raised OSError)
  \/ (iostat_files <> []
      /\ (forall p, In p iostat_files -> fs p <> None)
      /\ found = []
      /\ main float fs a iostat_files = NoMatchingRecords)
  \/ ((forall p, In p iostat_files -> fs p <> None)
      /\ (exists r, In r found
                    /\ List.length (Str.split "-" (filename r)) < 2)
      /\ main float fs a iostat_files = Raised IndexError)
  \/ ((forall p, In p iostat_files -> fs p <> None)
      /\ found <> []
      /\ (forall r, In r found ->
            2 <= List.length (Str.split "-" (filename r)))
      /\ exists rep, main float fs a iostat_files = Completed rep).
Proof.
  intros found.
  assert (Hcase : iostat_files = [] \/ iostat_files <> [])
    by (destruct iostat_files; [now left | right; discriminate]).
  destruct Hcase as [-> | Hne]; [now left | right].
  set (sorted := PySort.sort_asc String.ltb iostat_files).
  assert (Hperm : Permutation sorted iostat_files) by apply sort_asc_perm.
  destruct (files_readable_dec fs iostat_files) as [Hall | (p & Hp & Hnone)].
  2:{ left. split; [now exists p |].
      apply main_raises_read; [assumption |].
      apply (process_files_unreadable float fs _ _ [] p); [| assumption].
      eapply Permutation_in; [symmetry; exact Hperm | exact Hp]. }
  right.
  assert (Hrun : process_files float fs (effective_threshold a) sorted []
                 = inr (flat_map (entries_of float fs (effective_threshold a))
                          sorted)).
  { rewrite process_files_readable; [reflexivity |].
    intros q Hq. apply Hall.
    eapply Permutation_in; [exact Hperm | exact Hq]. }
  set (unsorted := flat_map (entries_of float fs (effective_threshold a))
                     sorted) in *.
  assert (Hfound : Permutation unsorted found).
  { unfold unsorted, found. now apply Permutation_flat_map. }
  assert (Hempty : unsorted = [] \/ unsorted <> [])
    by (destruct unsorted; [now left | right; discriminate]).
  destruct Hempty as [Hu | Hu].
  { left. repeat split; try assumption.
    - rewrite Hu in Hfound. now apply Permutation_nil in Hfound.
    - apply main_no_match; [assumption |]. fold sorted. now rewrite Hrun, Hu. }
  right.
  assert (Hin : forall r, In r (sort_results unsorted) <-> In r found).
  { intros r. split; intros H.
    - eapply Permutation_in; [exact Hfound |].
      eapply Permutation_in; [apply sort_desc_perm | exact H].
    - eapply Permutation_in; [symmetry; apply sort_desc_perm |].
      eapply Permutation_in; [symmetry; exact Hfound | exact H]. }
  assert (Hne' : found <> []).
  { intros Heq. rewrite Heq in Hfound.
    apply Permutation_sym, Permutation_nil in Hfound. congruence. }
  destruct (servers_dec (sort_results unsorted))
    as [Hservers | (r & Hr & Hshort)].
  - right. repeat split; try assumption.
    + intros r Hr. apply Hin in Hr. destruct (Hservers r Hr) as [s Hs].
      destruct (server_of_cases r) as [(_ & _ & H2) | [Hs' _]];
        [exact H2 | congruence].
    + now apply (main_completes float fs a iostat_files Hne unsorted).
  - left. repeat split; try assumption.
    + exists r. split; [now apply Hin | assumption].
    + apply (main_raises_group float fs a iostat_files Hne unsorted);
        [assumption | assumption |].
      now apply (group_by_server_raises _ [] r Hr), server_of_short.
Qed.

(** ** The dictionary of servers *)

Lemma dict_keys_append server result d :
  map fst (dict_append server result d)
  = if Str.mem server (map fst d) then map fst d
    else map fst d ++ [server].
Proof.
  induction d as [| [k v] d IH]; cbn [dict_append map fst]; [reflexivity |].
  unfold Str.mem in *. cbn [existsb].
  rewrite (String.eqb_sym server k).
  destruct (String.eqb k server); cbn [map fst orb]; [reflexivity |].
  rewrite IH. now destruct (existsb (String.eqb server) (map fst d)).
Qed.

Lemma mem_In x l : Str.mem x l = true <-> In x l.
Proof.
  unfold Str.mem. rewrite existsb_exists. split.
  - intros (y & Hy & Heq). apply String.eqb_eq in Heq. now subst.
  - intros H. exists x. split; [assumption | apply String.eqb_refl].
Qed.

Lemma first_seen_ext l : forall seen seen',
  (forall x, Str.mem x seen = Str.mem x seen') ->
  first_seen seen l = first_seen seen' l.
Proof.
  induction l as [| r l IH]; intros seen seen' H; cbn [first_seen];
    [reflexivity |].
  destruct (server_of r) as [| s]; [now apply IH |].
  rewrite <- (H s). destruct (Str.mem s seen) eqn:Hs; [now apply IH |].
  f_equal. apply IH. intros x. unfold Str.mem in *. cbn [existsb].
  now rewrite H.
Qed.

Lemma first_seen_fresh l : forall seen x,
  In x (first_seen seen l) -> ~ In x seen.
Proof.
  induction l as [| r l IH]; intros seen x Hx; cbn [first_seen] in Hx;
    [destruct Hx |].
  destruct (server_of r) as [| s]; [now apply IH |].
  destruct (Str.mem s seen) eqn:Hs; [now apply IH |].
  destruct Hx as [<- | Hx].
  - intros Hin. apply mem_In in Hin. congruence.
  - apply IH in Hx. intros Hin. apply Hx. now right.
Qed.

Lemma first_seen_NoDup l : forall seen, NoDup (first_seen seen l).
Proof.
  induction l as [| r l IH]; intros seen; cbn [first_seen]; [constructor |].
  destruct (server_of r) as [| s]; [apply IH |].
  destruct (Str.mem s seen); [apply IH |].
  constructor; [| apply IH].
  intros Hin. apply first_seen_fresh in Hin. apply Hin. now left.
Qed.

(** What the grouping loop leaves in the dictionary, key by key, and the
    order of its keys. *)
Lemma group_by_server_spec l : forall d by_server,
  group_by_server l d = inr by_server ->
  (forall k,
      dict_get k by_server
      = match dict_get k d, filter (has_server k) l with
        | Some v, f => Some (v ++ f)
        | None, [] => None
        | None, f => Some f
        end)
  /\ map fst by_server = map fst d ++ first_seen (map fst d) l.
Proof.
  induction l as [| r l IH]; intros d by_server Hrun;
    cbn [group_by_server] in Hrun.
  - injection Hrun as <-. split.
    + intros k. cbn [filter]. destruct (dict_get k d);
        [now rewrite app_nil_r | reflexivity].
    + cbn [first_seen]. now rewrite app_nil_r.
  - destruct (server_of r) as [| s] eqn:Hs; [discriminate |].
    destruct (IH _ _ Hrun) as [Hget Hkeys]. split.
    + intros k. rewrite Hget, dict_get_append.
      assert (Hf : filter (has_server k) (r :: l)
                   = if String.eqb s k then r :: filter (has_server k) l
                     else filter (has_server k) l).
      { cbn [filter]. unfold has_server at 1. now rewrite Hs. }
      rewrite Hf. destruct (String.eqb s k) eqn:E.
      * apply String.eqb_eq in E. subst k.
        destruct (dict_get s d); [now rewrite <- app_assoc | reflexivity].
      * reflexivity.
    + rewrite Hkeys, dict_keys_append. cbn [first_seen]. rewrite Hs.
      destruct (Str.mem s (map fst d)) eqn:Hm; [reflexivity |].
      rewrite <- app_assoc. cbn [app]. do 2 f_equal.
      apply first_seen_ext. intros x. unfold Str.mem.
      rewrite existsb_app. cbn [existsb].
      now rewrite orb_false_r, orb_comm.
Qed.

Lemma dict_get_In d k v :
  NoDup (map fst d) -> (In (k, v) d <-> dict_get k d = Some v).
Proof.
  induction d as [| [k' v'] d IH]; intros Hnd; cbn [dict_get].
  - split; [intros [] | discriminate].
  - cbn [map fst] in Hnd. inversion Hnd as [| ? ? Hnot Hnd']; subst.
    destruct (String.eqb k' k) eqn:E.
    + apply String.eqb_eq in E. subst k'. split.
      * intros [[= ->] | Hin]; [reflexivity |].
        exfalso. apply Hnot. apply in_map_iff. now exists (k, v).
      * intros [= ->]. now left.
    + apply String.eqb_neq in E. rewrite <- (IH Hnd'). split.
      * intros [[= -> _] | Hin]; [congruence | assumption].
      * intros Hin. now right.
Qed.

Lemma dict_size_append server result d :
  list_sum (map (fun g => List.length (snd g)) (dict_append server result d))
  = S (list_sum (map (fun g => List.length (snd g)) d)).
Proof.
  induction d as [| [k v] d IH]; cbn [dict_append]; [reflexivity |].
  destruct (String.eqb k server); cbn [map snd list_sum fold_right].
  - rewrite length_app. cbn [List.length]. unfold list_sum. lia.
  - unfold list_sum in *. cbn [fold_right]. rewrite IH. lia.
Qed.

Lemma group_by_server_size l : forall d by_server,
  group_by_server l d = inr by_server ->
  list_sum (map (fun g => List.length (snd g)) by_server)
  = list_sum (map (fun g => List.length (snd g)) d) + List.length l.
Proof.
  induction l as [| r l IH]; intros d by_server Hrun;
    cbn [group_by_server] in Hrun.
  - injection Hrun as <-. cbn [List.length]. lia.
  - destruct (server_of r) as [| s]; [discriminate |].
    rewrite (IH _ _ Hrun), dict_size_append. cbn [List.length]. lia.
Qed.

(** X10: in a report the dictionary of servers has one key for each
    server of the sorted entries, in the order in which the servers first
    appear there; the list under a key is the sorted entries of that
    server, in their order, and is never empty; every entry is in one
    list. *)
Theorem grouping_is_filtering
    (float : string -> option pyfloat) fs a iostat_files rep :
  main float fs a iostat_files = Completed rep ->
  map fst (rep_by_server rep) = first_seen [] (rep_all_results rep)
  /\ NoDup (map fst (rep_by_server rep))
  /\ (forall server entries,
        In (server, entries) (rep_by_server rep) ->
        entries = filter (has_server server) (rep_all_results rep)
        /\ entries <> [])
  /\ list_sum (map (fun g => List.length (snd g)) (rep_by_server rep))
     = List.length (rep_all_results rep).
Proof.
  intros Hmain. apply main_completed in Hmain.
  destruct Hmain as (unsorted & _ & _ & Hall & Hgroup & _).
  rewrite <- Hall in Hgroup.
  pose proof (group_by_server_size _ _ _ Hgroup) as Hsize.
  apply group_by_server_spec in Hgroup. destruct Hgroup as [Hget Hkeys].
  cbn [map app dict_get] in Hget, Hkeys.
  assert (Hnd : NoDup (map fst (rep_by_server rep)))
    by (rewrite Hkeys; apply first_seen_NoDup).
  assert (Hgroups : forall server entries,
             In (server, entries) (rep_by_server rep) ->
             entries = filter (has_server server) (rep_all_results rep)
             /\ entries <> []).
  { intros server entries Hin. apply (dict_get_In _ _ _ Hnd) in Hin.
    rewrite Hget in Hin.
    destruct (filter (has_server server) (rep_all_results rep));
      [discriminate |].
    injection Hin as <-. split; [reflexivity | discriminate]. }
  split; [exact Hkeys |]. split; [exact Hnd |].
  split; [exact Hgroups |]. rewrite Hsize. reflexivity.
Qed.

Lemma grouping_is_filtering_witness :
  exists rep,
    main Sample.float_plain Inputs.fs1 (Inputs.args_of Inputs.t100 None)
      [Inputs.host1] = Completed rep
    /\ map fst (rep_by_server rep) = first_seen [] (rep_all_results rep).
Proof.
  eexists. split; [vm_compute; reflexivity |].
  refine (proj1 (grouping_is_filtering Sample.float_plain Inputs.fs1
                   (Inputs.args_of Inputs.t100 None) [Inputs.host1] _ _)).
  vm_compute. reflexivity.
Defined.

(** ** Negative limits *)

(** X11: a negative limit [-k] is handed to the slice as it is: the table
    shows the sorted entries without the last [k] of them, and nothing
    when there are no more than [k]. *)
Theorem negative_limit_drops_last
    (float : string -> option pyfloat) fs a iostat_files rep n :
  main float fs a iostat_files = Completed rep ->
  args_limit a = Some n -> (n < 0)%Z ->
  map snd (rep_table rep)
  = firstn (List.length (rep_all_results rep) - Z.to_nat (- n))
      (rep_all_results rep).
Proof.
  intros Hmain Hn Hneg. apply main_completed in Hmain.
  destruct Hmain as (unsorted & _ & _ & Hall & _ & Htable & _).
  rewrite <- Hall in Htable. apply with_servers_snd in Htable.
  rewrite Htable. unfold display_limit. rewrite Hn.
  destruct (n =? 0)%Z eqn:E; [apply Z.eqb_eq in E; lia |].
  unfold slice_to. destruct (0 <=? n)%Z eqn:E'; [apply Z.leb_le in E'; lia |].
  f_equal. lia.
Qed.

Lemma negative_limit_drops_last_witness :
  exists rep,
    main Sample.float_plain Inputs.fs1
      (Inputs.args_of Inputs.t100 (Some (-1)%Z)) [Inputs.host1]
    = Completed rep
    /\ map snd (rep_table rep)
       = firstn (List.length (rep_all_results rep) - 1) (rep_all_results rep).
Proof.
  eexists. split; [vm_compute; reflexivity |].
  refine (negative_limit_drops_last Sample.float_plain Inputs.fs1
            (Inputs.args_of Inputs.t100 (Some (-1)%Z)) [Inputs.host1]
            _ (-1)%Z _ eq_refl _).
  - vm_compute. reflexivity.
  - lia.
Defined.

(** ** The ladders *)

Module LadderFacts.
Import PyFloat.

Lemma fge_le_mono p q c :
  fle p q = true -> fge p c = true -> fge q c = true.
Proof. FloatFacts.fsolve. Qed.

Lemma fgt_fge_false p t hi :
  fgt p t = true -> fle hi t = true -> flt p hi = false.
Proof. FloatFacts.fsolve. Qed.

Ltac split_ladder q :=
  repeat match goal with
  | |- context [fge q ?c] => destruct (fge q c)
  end.

End LadderFacts.

(** X14: the label grows with the peak; the emoji is always that of the
    label, and the maximum of a table row is left uncoloured exactly when
    the label is SLOW.  A NaN peak is labelled SLOW. *)
Theorem ladders_agree (p q : pyfloat) :
  (PyFloat.fle p q = true ->
   tier_rank (get_severity_text p) <= tier_rank (get_severity_text q))
  /\ get_severity_emoji p = emoji_of_tier (get_severity_text p)
  /\ (max_color p = PLAIN <-> get_severity_text p = SLOW)
  /\ (PyFloat.is_nan p = true -> get_severity_text p = SLOW).
Proof.
  split; [| split; [| split]].
  - intros Hle.
    pose proof (fun c => LadderFacts.fge_le_mono p q c Hle) as Hmono.
    unfold get_severity_text.
    destruct (PyFloat.fge p (PyFloat.of_Z 5000)) eqn:E1.
    { rewrite (Hmono _ E1). cbn. lia. }
    destruct (PyFloat.fge p (PyFloat.of_Z 1000)) eqn:E2.
    { rewrite (Hmono _ E2). LadderFacts.split_ladder q; cbn; lia. }
    destruct (PyFloat.fge p (PyFloat.of_Z 500)) eqn:E3.
    { rewrite (Hmono _ E3). LadderFacts.split_ladder q; cbn; lia. }
    destruct (PyFloat.fge p (PyFloat.of_Z 250)) eqn:E4.
    { rewrite (Hmono _ E4). LadderFacts.split_ladder q; cbn; lia. }
    destruct (PyFloat.fge p (PyFloat.of_Z 200)) eqn:E5.
    { rewrite (Hmono _ E5). LadderFacts.split_ladder q; cbn; lia. }
    destruct (PyFloat.fge p (PyFloat.of_Z 100)) eqn:E6.
    { rewrite (Hmono _ E6). LadderFacts.split_ladder q; cbn; lia. }
    cbn. lia.
  - unfold get_severity_emoji, get_severity_text.
    LadderFacts.split_ladder p; reflexivity.
  - unfold max_color, get_severity_text.
    LadderFacts.split_ladder p; split; intros H; (reflexivity || discriminate H).
  - intros Hnan. destruct p; try discriminate Hnan. reflexivity.
Qed.

Lemma ladders_agree_witness :
  tier_rank (get_severity_text (PyFloat.of_Z 150))
  <= tier_rank (get_severity_text (PyFloat.of_Z 6000)).
Proof.
  apply (proj1 (ladders_agree (PyFloat.of_Z 150) (PyFloat.of_Z 6000))).
  reflexivity.
Defined.

(** ** Labels and lists of the breakdown *)

Lemma bucket_of_tier_filter threshold l t :
  bucket_of_tier (severity_breakdown threshold l) t
  = filter (tier_test threshold t) l.
Proof. destruct t; reflexivity. Qed.

(** The test of a tier holds of an entry that passed line 45 and has a
    peak exactly when the tier is the label of the peak. *)
Lemma tier_test_label threshold r t :
  exceeds threshold r = true ->
  PyFloat.is_nan (max_await r) = false ->
  (tier_test threshold t r = true <-> t = get_severity_text (max_await r)).
Proof.
  intros Hex Hp.
  assert (Hgt : PyFloat.fgt (max_await r) threshold = true).
  { unfold max_await in *. rewrite FloatFacts.max_nan in Hp.
    now rewrite FloatFacts.max_exceeds. }
  pose proof (FloatFacts.fgt_fle _ _ Hgt) as Hle.
  unfold get_severity_text.
  pose proof (TierFacts.fge_mono (max_await r) (PyFloat.of_Z 5000)
                (PyFloat.of_Z 1000) eq_refl) as H1.
  pose proof (TierFacts.fge_mono (max_await r) (PyFloat.of_Z 1000)
                (PyFloat.of_Z 500) eq_refl) as H2.
  pose proof (TierFacts.fge_mono (max_await r) (PyFloat.of_Z 500)
                (PyFloat.of_Z 250) eq_refl) as H3.
  pose proof (TierFacts.fge_mono (max_await r) (PyFloat.of_Z 250)
                (PyFloat.of_Z 200) eq_refl) as H4.
  pose proof (TierFacts.fge_mono (max_await r) (PyFloat.of_Z 200)
                (PyFloat.of_Z 100) eq_refl) as H5.
  destruct t; cbn [tier_test];
    unfold is_catastrophic, is_critical, is_extreme, is_very_high,
      is_severe, is_medium_high, is_normal;
    rewrite ?TierFacts.in_range_const by assumption;
    unfold in_range; rewrite ?Hle;
    rewrite ?(TierFacts.flt_negb_fge (max_await r) (PyFloat.of_Z 100))
      by (assumption || reflexivity);
    destruct (PyFloat.fge (max_await r) (PyFloat.of_Z 5000));
    destruct (PyFloat.fge (max_await r) (PyFloat.of_Z 1000));
    destruct (PyFloat.fge (max_await r) (PyFloat.of_Z 500));
    destruct (PyFloat.fge (max_await r) (PyFloat.of_Z 250));
    destruct (PyFloat.fge (max_await r) (PyFloat.of_Z 200));
    destruct (PyFloat.fge (max_await r) (PyFloat.of_Z 100));
    cbn [andb negb];
    try (specialize (H1 eq_refl); discriminate H1);
    try (specialize (H2 eq_refl); discriminate H2);
    try (specialize (H3 eq_refl); discriminate H3);
    try (specialize (H4 eq_refl); discriminate H4);
    try (specialize (H5 eq_refl); discriminate H5);
    split; intros H; (reflexivity || discriminate H).
Qed.

(** X13: an entry of a report whose peak is not NaN is counted in the
    list of its label and in no other list; an entry whose peak is NaN is
    labelled SLOW and counted in no list. *)
Theorem label_matches_list
    (float : string -> option pyfloat) fs a iostat_files rep r :
  main float fs a iostat_files = Completed rep ->
  In r (rep_all_results rep) ->
  if PyFloat.is_nan (max_await r)
  then get_severity_text (max_await r) = SLOW
       /\ forall t, ~ In r (bucket_of_tier (rep_breakdown rep) t)
  else forall t,
         In r (bucket_of_tier (rep_breakdown rep) t)
         <-> t = get_severity_text (max_await r).
Proof.
  intros Hmain Hin.
  pose proof (results_exceed float fs a iostat_files rep r Hmain Hin) as Hex.
  apply main_completed in Hmain.
  destruct Hmain as (unsorted & _ & Ht & Hall & _ & _ & _ & Hb & _).
  rewrite <- Ht, <- Hall in Hb. rewrite Hb.
  destruct (PyFloat.is_nan (max_await r)) eqn:Hp.
  - split.
    + destruct (max_await r); try discriminate Hp. reflexivity.
    + intros t Ht'. rewrite bucket_of_tier_filter in Ht'.
      apply filter_In in Ht'. destruct Ht' as [_ Htest].
      destruct (max_await r) eqn:Hm; try discriminate Hp.
      destruct t; cbn [tier_test] in Htest;
        unfold is_catastrophic, is_critical, is_extreme, is_very_high,
          is_severe, is_medium_high, is_normal, in_range in Htest;
        rewrite Hm in Htest;
        destruct (rep_threshold rep) as [| [|] |]; discriminate Htest.
  - intros t. rewrite bucket_of_tier_filter, filter_In.
    rewrite (tier_test_label _ _ t Hex Hp). tauto.
Qed.

Lemma label_matches_list_witness :
  exists rep,
    main Sample.float_plain Inputs.fs_short
      (Inputs.args_of Inputs.t100 None) [Inputs.host1] = Completed rep
    /\ forall r, In r (rep_all_results rep) ->
         if PyFloat.is_nan (max_await r)
         then get_severity_text (max_await r) = SLOW
              /\ forall t, ~ In r (bucket_of_tier (rep_breakdown rep) t)
         else forall t,
                In r (bucket_of_tier (rep_breakdown rep) t)
                <-> t = get_severity_text (max_await r).
Proof.
  eexists. split; [vm_compute; reflexivity |].
  intros r. refine (label_matches_list Sample.float_plain Inputs.fs_short
                      (Inputs.args_of Inputs.t100 None) [Inputs.host1]
                      _ r _).
  vm_compute. reflexivity.
Defined.

(** X17: a list of the breakdown whose range ends at or below the
    threshold is empty; with [--extreme-only] the five lists below
    Critical are empty and the Slow line is not shown. *)
Theorem lists_below_threshold_empty
    (float : string -> option pyfloat) fs a iostat_files rep :
  main float fs a iostat_files = Completed rep ->
  (forall lo hi,
      PyFloat.fle hi (rep_threshold rep) = true ->
      filter (in_range lo hi) (rep_all_results rep) = [])
  /\ (args_extreme_only a = true ->
      extreme (rep_breakdown rep) = []
      /\ very_high (rep_breakdown rep) = []
      /\ severe (rep_breakdown rep) = []
      /\ medium_high (rep_breakdown rep) = []
      /\ normal (rep_breakdown rep) = []
      /\ rep_slow_shown rep = false).
Proof.
  intros Hmain.
  pose proof (fun r => results_exceed float fs a iostat_files rep r Hmain)
    as Hex.
  apply main_completed in Hmain.
  destruct Hmain as (unsorted & _ & Ht & Hall & _ & _ & _ & Hb & Hshown).
  rewrite <- Ht, <- Hall in Hb.
  assert (Hempty : forall lo hi,
             PyFloat.fle hi (rep_threshold rep) = true ->
             filter (in_range lo hi) (rep_all_results rep) = []).
  { intros lo hi Hhi.
    destruct (filter (in_range lo hi) (rep_all_results rep)) as [| r rest]
      eqn:Hf; [reflexivity | exfalso].
    assert (Hr : In r (filter (in_range lo hi) (rep_all_results rep)))
      by (rewrite Hf; now left).
    apply filter_In in Hr. destruct Hr as [Hin Hrange].
    specialize (Hex r Hin). unfold in_range in Hrange.
    apply andb_true_iff in Hrange. destruct Hrange as [_ Hlt].
    assert (Hnan : PyFloat.is_nan (max_await r) = false).
    { revert Hlt. clear. generalize (max_await r). intros p.
      FloatFacts.fsolve. }
    assert (Hgt : PyFloat.fgt (max_await r) (rep_threshold rep) = true).
    { unfold max_await in *. rewrite FloatFacts.max_nan in Hnan.
      now rewrite FloatFacts.max_exceeds. }
    rewrite (LadderFacts.fgt_fge_false _ _ _ Hgt Hhi) in Hlt.
    discriminate Hlt. }
  split; [exact Hempty |].
  intros He. rewrite Hshown, Hb. unfold slow_shown.
  cbn [severity_breakdown extreme very_high severe medium_high normal].
  unfold is_extreme, is_very_high, is_severe, is_medium_high, is_normal.
  assert (Hthr : rep_threshold rep = PyFloat.of_Z 1000)
    by (rewrite Ht; unfold effective_threshold; now rewrite He).
  rewrite !Hempty by (rewrite Hthr; reflexivity).
  repeat split.
Qed.

Lemma lists_below_threshold_empty_witness :
  exists rep,
    main Sample.float_plain Inputs.fs2
      {| args_threshold := Inputs.t100; args_detailed := false;
         args_limit := None; args_extreme_only := true |}
      [Inputs.host2] = Completed rep
    /\ extreme (rep_breakdown rep) = [].
Proof.
  eexists. split; [vm_compute; reflexivity |].
  refine (proj1 (proj2 (lists_below_threshold_empty Sample.float_plain
                          Inputs.fs2
                          {| args_threshold := Inputs.t100;
                             args_detailed := false;
                             args_limit := None;
                             args_extreme_only := true |}
                          [Inputs.host2] _ _) eq_refl)).
  vm_compute. reflexivity.
Defined.

(** ** The summary by server *)

Module MaxFacts.
Import PyFloat.

Lemma max_from_In l : forall best, In (max_from best l) (best :: l).
Proof.
  induction l as [| x l IH]; intros best; cbn [max_from]; [now left |].
  destruct (IH (if fgt x best then x else best)) as [H | H].
  - rewrite <- H. destruct (fgt x best); [right; now left | now left].
  - right. now right.
Qed.

Lemma keep_ge x best :
  is_nan x = false -> is_nan best = false ->
  fge (if fgt x best then x else best) best = true
  /\ fge (if fgt x best then x else best) x = true
  /\ is_nan (if fgt x best then x else best) = false.
Proof. FloatFacts.fsolve. Qed.

Lemma fge_trans a b c : fge a b = true -> fge b c = true -> fge a c = true.
Proof. FloatFacts.fsolve. Qed.

Lemma fge_refl a : is_nan a = false -> fge a a = true.
Proof. FloatFacts.fsolve. Qed.

Lemma max_from_ge l : forall best,
  is_nan best = false -> Forall (fun x => is_nan x = false) l ->
  forall x, In x (best :: l) -> fge (max_from best l) x = true.
Proof.
  induction l as [| y l IH]; intros best Hb Hl x Hx; cbn [max_from].
  - destruct Hx as [<- | []]. now apply fge_refl.
  - inversion Hl as [| ? ? Hy Hl']; subst.
    destruct (keep_ge y best Hy Hb) as (Hgb & Hgy & Hn).
    assert (Hmax : fge (max_from (if fgt y best then y else best) l)
                     (if fgt y best then y else best) = true)
      by (apply IH; [assumption | assumption | now left]).
    destruct Hx as [<- | [<- | Hx]].
    + eapply fge_trans; eassumption.
    + eapply fge_trans; eassumption.
    + apply IH; [assumption | assumption | now right].
Qed.

End MaxFacts.

Lemma server_lines_ok items :
  (forall k v, In (k, v) items -> v <> []) ->
  exists lines,
    server_lines items = Some lines
    /\ map sl_server lines = map fst items
    /\ forall line, In line lines ->
         exists v, In (sl_server line, v) items
                   /\ sl_entries line = List.length v
                   /\ py_max (map max_await v) = Some (sl_max_await line)
                   /\ sl_emoji line = get_severity_emoji (sl_max_await line)
                   /\ sl_severity line
                      = get_severity_text (sl_max_await line).
Proof.
  induction items as [| [k v] items IH]; intros Hne; cbn [server_lines].
  - exists []. repeat split. intros line [].
  - destruct IH as (lines & -> & Hkeys & Hlines);
      [intros k' v' H; apply (Hne k' v'); now right |].
    destruct v as [| e v]; [now destruct (Hne k [] (or_introl eq_refl)) |].
    cbn [map py_max]. eexists. split; [reflexivity |]. split.
    + cbn [map sl_server fst]. now rewrite Hkeys.
    + intros line [<- | Hin].
      * exists (e :: v). cbn. repeat split. now left.
      * destruct (Hlines line Hin) as (v' & Hv' & Hrest).
        exists v'. split; [now right | exact Hrest].
Qed.

Lemma sorted_keys_strict (l : list string) :
  NoDup l ->
  StronglySorted (fun x y => String.ltb y x = false) l ->
  StronglySorted (fun x y => String.ltb x y = true) l.
Proof.
  intros Hnd Hs. induction Hs as [| x l Hs IH Hall]; [constructor |].
  inversion Hnd as [| ? ? Hnot Hnd']; subst.
  constructor; [now apply IH |].
  rewrite Forall_forall in *. intros y Hy.
  destruct (String.ltb x y) eqn:E; [reflexivity |].
  exfalso. apply Hnot.
  now rewrite (StringOrder.ltb_total x y E (Hall y Hy)).
Qed.

Lemma StronglySorted_map {A B : Type} (f : A -> B) (R : B -> B -> Prop) l :
  StronglySorted (fun x y => R (f x) (f y)) l -> StronglySorted R (map f l).
Proof.
  induction 1 as [| x l Hs IH Hall]; cbn [map]; constructor;
    [assumption |].
  apply Forall_forall. intros y Hy. apply in_map_iff in Hy.
  destruct Hy as (z & <- & Hz). rewrite Forall_forall in Hall.
  now apply Hall.
Qed.

(** X12: the summary by server of a report raises nothing and has one
    line for each server, in ascending order of the server names; a line
    counts the sorted entries of its server and shows the [max] of their
    peaks, which, when none of them has a NaN read await, is the peak of
    one of them and at least the peak of each. *)
Theorem summary_by_server_lines
    (float : string -> option pyfloat) fs a iostat_files rep :
  main float fs a iostat_files = Completed rep ->
  exists lines,
    summary_by_server (rep_by_server rep) = Some lines
    /\ Permutation (map sl_server lines) (map fst (rep_by_server rep))
    /\ StronglySorted (fun x y => String.ltb x y = true)
         (map sl_server lines)
    /\ forall line, In line lines ->
         let group :=
           filter (has_server (sl_server line)) (rep_all_results rep) in
         sl_entries line = List.length group
         /\ py_max (map max_await group) = Some (sl_max_await line)
         /\ sl_emoji line = get_severity_emoji (sl_max_await line)
         /\ sl_severity line = get_severity_text (sl_max_await line)
         /\ ((forall r, In r group ->
                PyFloat.is_nan (r_await r) = false) ->
             (exists r, In r group /\ max_await r = sl_max_await line)
             /\ forall r, In r group ->
                  PyFloat.fge (sl_max_await line) (max_await r) = true).
Proof.
  intros Hmain.
  set (items := PySort.sort_asc (fun x y => String.ltb (fst x) (fst y))
                  (rep_by_server rep)).
  assert (Hperm : Permutation items (rep_by_server rep))
    by apply sort_asc_perm.
  assert (Hnd : NoDup (map fst (rep_by_server rep)) /\
                forall server entries,
                  In (server, entries) (rep_by_server rep) ->
                  entries = filter (has_server server) (rep_all_results rep)
                  /\ entries <> []).
  { apply main_completed in Hmain.
    destruct Hmain as (unsorted & _ & _ & Hall & Hgroup & _).
    rewrite <- Hall in Hgroup.
    apply group_by_server_spec in Hgroup. destruct Hgroup as [Hget Hkeys].
    cbn [map app dict_get] in Hget, Hkeys.
    assert (Hnd : NoDup (map fst (rep_by_server rep)))
      by (rewrite Hkeys; apply first_seen_NoDup).
    split; [exact Hnd |].
    intros server entries Hin. apply (dict_get_In _ _ _ Hnd) in Hin.
    rewrite Hget in Hin.
    destruct (filter (has_server server) (rep_all_results rep));
      [discriminate |].
    injection Hin as <-. split; [reflexivity | discriminate]. }
  destruct Hnd as [Hnd Hgroups].
  destruct (server_lines_ok items) as (lines & Hrun & Hkeys & Hlines).
  { intros k v Hin. apply (Hgroups k v).
    eapply Permutation_in; [exact Hperm | exact Hin]. }
  exists lines. unfold summary_by_server. fold items.
  split; [exact Hrun |]. rewrite Hkeys. split; [| split].
  - now apply Permutation_map.
  - apply sorted_keys_strict.
    + eapply Permutation_NoDup; [| exact Hnd].
      symmetry. now apply Permutation_map.
    + apply StronglySorted_map. apply sort_asc_key_sorted.
  - intros line Hin. cbv zeta.
    set (group := filter (has_server (sl_server line))
                    (rep_all_results rep)).
    destruct (Hlines line Hin) as (v & Hv & Hcount & Hmax & Hem & Hsev).
    assert (Hv' : In (sl_server line, v) (rep_by_server rep))
      by (eapply Permutation_in; [exact Hperm | exact Hv]).
    destruct (Hgroups _ _ Hv') as [Heq Hne]. fold group in Heq. subst v.
    repeat split; try assumption.
    + destruct group as [| e rest]; [congruence |].
      cbn [map py_max] in Hmax. injection Hmax as Hmax.
      pose proof (MaxFacts.max_from_In (map max_await rest) (max_await e))
        as Hin'.
      rewrite Hmax in Hin'. change (max_await e :: map max_await rest)
        with (map max_await (e :: rest)) in Hin'.
      apply in_map_iff in Hin'. destruct Hin' as (r & Hr & Hr').
      now exists r.
    + intros r Hr. destruct group as [| e rest]; [destruct Hr |].
      cbn [map py_max] in Hmax. injection Hmax as <-.
      assert (Hpeak : forall x, In x (e :: rest) ->
                PyFloat.is_nan (max_await x) = false).
      { intros x Hx. unfold max_await. rewrite FloatFacts.max_nan.
        now apply H. }
      apply MaxFacts.max_from_ge.
      * apply Hpeak. now left.
      * apply Forall_forall. intros p Hp. apply in_map_iff in Hp.
        destruct Hp as (x & <- & Hx). apply Hpeak. now right.
      * change (max_await e :: map max_await rest)
          with (map max_await (e :: rest)). now apply in_map.
Qed.

Lemma summary_by_server_lines_witness :
  exists lines,
    summary_by_server
      (match main Sample.float_plain Inputs.fs_short
               (Inputs.args_of Inputs.t100 None) [Inputs.host1] with
       | Completed rep => rep_by_server rep
       | _ => []
       end) = Some lines.
Proof.
  assert (Hm : exists rep,
             main Sample.float_plain Inputs.fs_short
               (Inputs.args_of Inputs.t100 None) [Inputs.host1]
             = Completed rep)
    by (eexists; vm_compute; reflexivity).
  destruct Hm as [rep Hm].
  destruct (summary_by_server_lines Sample.float_plain Inputs.fs_short
              (Inputs.args_of Inputs.t100 None) [Inputs.host1] rep Hm)
    as (lines & Hlines & _).
  exists lines. now rewrite Hm.
Defined.

(** ** The detailed view *)

Section DetailFacts.
Variable float : string -> option pyfloat.

(** The fields of an entry whose tokens 9 and 10 convert to its awaits. *)
Lemma field_lines_ok e :
  16 <= List.length (all_parts e) ->
  float (nth 9 (all_parts e) "") = Some (r_await e) ->
  float (nth 10 (all_parts e) "") = Some (w_await e) ->
  field_lines float (enumerate (combine headers (all_parts e)))
  = inr (map (fun '(i, (h, v)) => (i, h, v, marker_at e i))
           (enumerate (combine headers (all_parts e)))).
Proof.
  intros Hlen Hr Hw.
  destruct (all_parts e)
    as [| p0 [| p1 [| p2 [| p3 [| p4 [| p5 [| p6 [| p7 [| p8 [| p9 [| p10
        [| p11 [| p12 [| p13 [| p14 [| p15 rest]]]]]]]]]]]]]]]];
    cbn [List.length] in Hlen; try lia.
  cbn [nth] in Hr, Hw.
  cbn [headers combine enumerate List.length seq field_lines map].
  unfold field_marker, high, marker_at. cbn [String.eqb Ascii.eqb Bool.eqb].
  rewrite Hr, Hw. cbn [Nat.eqb].
  destruct (PyFloat.fgt (r_await e) (PyFloat.of_Z 100)),
    (PyFloat.fgt (w_await e) (PyFloat.of_Z 100)); reflexivity.
Qed.

End DetailFacts.

(** X15: for an entry the extractor returned, [print_detailed_entry]
    raises only the [IndexError] of a file name with fewer than two
    dash-delimited tokens, never a [ValueError]; otherwise it shows the
    server, the peak and sixteen numbered fields, the first sixteen tokens
    under their headers, with the read marker on field 9 exactly when the
    read await is above 100 and the write marker on field 10 exactly when
    the write await is above 100, whatever the threshold of the run. *)
Theorem detailed_entry_view
    (float : string -> option pyfloat) fs filepath threshold results r index :
  check_high_await_times float fs filepath threshold = inr results ->
  In r results ->
  match print_detailed_entry float r index with
  | inl e =>
      e = DetailIndexError
      /\ List.length (Str.split "-" (filename r)) < 2
  | inr d =>
      nth_error (Str.split "-" (filename r)) 1 = Some (d_server d)
      /\ d_number d = index + 1
      /\ d_max_await d = max_await r
      /\ d_severity d = get_severity_text (max_await r)
      /\ List.length (d_fields d) = 16
      /\ d_fields d
         = map (fun '(i, (h, v)) => (i, h, v, marker_at r i))
             (enumerate (combine headers (all_parts r)))
  end.
Proof.
  unfold check_high_await_times.
  destruct (fs filepath) as [lines |]; [| discriminate].
  intros [= <-] Hin. apply scan_lines_In in Hin.
  destruct Hin as (pre & line & post & _ & Hc & _).
  pose proof (candidate_fields _ _ _ _ _ _ Hc)
    as (_ & _ & _ & _ & _ & Hlen & Hr & Hw).
  pose proof (candidate_shape _ _ _ _ _ _ Hc) as (_ & _ & Hparts & _).
  rewrite <- Hparts in Hlen, Hr, Hw.
  unfold print_detailed_entry.
  destruct (nth_error (Str.split "-" (filename r)) 1) as [server |] eqn:Hs.
  - rewrite (field_lines_ok float r Hlen Hr Hw).
    cbn [d_server d_number d_max_await d_severity d_fields].
    repeat split.
    unfold enumerate. rewrite length_map, length_combine, length_seq.
    rewrite length_combine. cbn [headers List.length]. lia.
  - split; [reflexivity |]. apply nth_error_None in Hs. lia.
Qed.

Lemma detailed_entry_view_witness :
  exists d,
    print_detailed_entry Sample.float_plain
      (hd (mk_entry "" "" 0 "" "" "" FNaN FNaN "" []) Inputs.host1_results) 0
    = inr d
    /\ List.length (d_fields d) = 16.
Proof.
  pose proof (detailed_entry_view Sample.float_plain Inputs.fs1 Inputs.host1
                Inputs.t100 Inputs.host1_results
                (hd (mk_entry "" "" 0 "" "" "" FNaN FNaN "" [])
                   Inputs.host1_results) 0
                ltac:(vm_compute; reflexivity)
                ltac:(vm_compute; left; reflexivity)) as H.
  destruct (print_detailed_entry Sample.float_plain
              (hd (mk_entry "" "" 0 "" "" "" FNaN FNaN "" [])
                 Inputs.host1_results) 0) as [e | d] eqn:Hd.
  - destruct H as [_ H]. vm_compute in H. lia.
  - exists d. split; [reflexivity |]. now destruct H as (_ & _ & _ & _ & H & _).
Defined.

(** ** The rows of the table *)

Module MarkFacts.
Import PyFloat.

(** An await is marked exactly when it is the peak and the peak is at
    least 100. *)
Lemma marks r w :
  (feq r (max r w) && fge r (of_Z 100))
  || (feq w (max r w) && fge w (of_Z 100))
  = fge (max r w) (of_Z 100).
Proof. FloatFacts.fsolve. Qed.

End MarkFacts.

Lemma table_rows_spec l : forall i rows,
  table_rows i l = inr rows ->
  with_servers l = inr (map (fun row => (row_server row, row_entry row)) rows)
  /\ map row_number rows = seq (i + 1) (List.length l)
  /\ forall row, In row rows ->
       row_max_await row = max_await (row_entry row)
       /\ row_emoji row = get_severity_emoji (row_max_await row)
       /\ row_max_color row = max_color (row_max_await row)
       /\ row_r_red row || row_w_red row
          = PyFloat.fge (row_max_await row) (PyFloat.of_Z 100).
Proof.
  induction l as [| e l IH]; intros i rows Hrun; cbn [table_rows] in Hrun.
  - injection Hrun as <-. split; [reflexivity |]. split; [reflexivity |].
    intros row [].
  - unfold table_row_of in Hrun. cbn [with_servers].
    destruct (server_of e) as [| server]; [discriminate |].
    destruct (table_rows (S i) l) as [| rows'] eqn:Hrest; [discriminate |].
    injection Hrun as <-. destruct (IH _ _ Hrest) as (Hws & Hnum & Hrows).
    rewrite Hws. cbn [map row_server row_entry row_number List.length seq].
    split; [reflexivity |]. split.
    + rewrite Hnum. now replace (S i + 1) with (S (i + 1)) by lia.
    + intros shown [<- | Hin]; [| now apply Hrows].
      cbn [row_max_await row_entry row_emoji row_max_color row_r_red
           row_w_red].
      repeat split. apply MarkFacts.marks.
Qed.

Lemma table_rows_total l : forall i rows,
  with_servers l = inr rows -> exists rows', table_rows i l = inr rows'.
Proof.
  induction l as [| e l IH]; intros i rows Hrun; cbn [with_servers] in Hrun;
    cbn [table_rows]; [now eexists |].
  unfold table_row_of. destruct (server_of e); [discriminate |].
  destruct (with_servers l) as [| rows0] eqn:Hl; [discriminate |].
  destruct (IH (S i) rows0 eq_refl) as [rows' ->]. now eexists.
Qed.

(** X16: the table of a report has one row for each shown entry, numbered
    from 1, each under the server of its entry; in a row an await is
    printed red exactly when it equals the peak and is at least 100, so
    some await is red exactly when the peak is at least 100, and then the
    maximum is coloured too. *)
Theorem table_rows_marks
    (float : string -> option pyfloat) fs a iostat_files rep :
  main float fs a iostat_files = Completed rep ->
  exists rows,
    table_rows 0 (map snd (rep_table rep)) = inr rows
    /\ map (fun row => (row_server row, row_entry row)) rows = rep_table rep
    /\ map row_number rows = seq 1 (List.length (rep_table rep))
    /\ forall row, In row rows ->
         row_r_red row || row_w_red row
         = PyFloat.fge (max_await (row_entry row)) (PyFloat.of_Z 100)
         /\ (row_max_color row = PLAIN
             <-> row_r_red row || row_w_red row = false).
Proof.
  intros Hmain. apply main_completed in Hmain.
  destruct Hmain as (unsorted & _ & _ & _ & _ & Htable & _).
  pose proof (with_servers_snd _ _ Htable) as Hsnd. rewrite <- Hsnd in Htable.
  destruct (table_rows_total _ 0 _ Htable) as [rows Hrows].
  exists rows. split; [exact Hrows |].
  destruct (table_rows_spec _ _ _ Hrows) as (Hws & Hnum & Hmarks).
  rewrite Htable in Hws. injection Hws as Hws.
  split; [now symmetry |]. split.
  - rewrite Hnum, length_map. reflexivity.
  - intros row Hin. destruct (Hmarks row Hin) as (Hmax & _ & Hcol & Hred).
    rewrite Hred, Hcol, Hmax. split; [reflexivity |].
    unfold max_color.
    pose proof (fun c H => TierFacts.fge_mono (max_await (row_entry row))
                   c (PyFloat.of_Z 100) H) as Hmono.
    destruct (PyFloat.fge (max_await (row_entry row)) (PyFloat.of_Z 100));
      [LadderFacts.split_ladder (max_await (row_entry row));
         split; intros H; discriminate H |].
    repeat match goal with
    | |- context [PyFloat.fge (max_await (row_entry row)) (PyFloat.of_Z ?c)] =>
        let E := fresh "E" in
        destruct (PyFloat.fge (max_await (row_entry row)) (PyFloat.of_Z c))
          eqn:E;
        [pose proof (Hmono (PyFloat.of_Z c) eq_refl E) as Habs;
         discriminate Habs |]
    end.
    split; intros _; reflexivity.
Qed.

Lemma table_rows_marks_witness :
  exists rep rows,
    main Sample.float_plain Inputs.fs1 (Inputs.args_of Inputs.t100 None)
      [Inputs.host1] = Completed rep
    /\ table_rows 0 (map snd (rep_table rep)) = inr rows.
Proof.
  assert (Hm : exists rep,
             main Sample.float_plain Inputs.fs1
               (Inputs.args_of Inputs.t100 None) [Inputs.host1]
             = Completed rep)
    by (eexists; vm_compute; reflexivity).
  destruct Hm as [rep Hm].
  destruct (table_rows_marks Sample.float_plain Inputs.fs1
              (Inputs.args_of Inputs.t100 None) [Inputs.host1] rep Hm)
    as (rows & Hrows & _).
  exists rep, rows. split; [exact Hm | exact Hrows].
Defined.

(** ** The outcomes on two files, one of them unreadable *)

Lemma process_files_concat_witness :
  process_files Sample.float_plain Inputs.fs2 Inputs.t100
    [Inputs.host1; Inputs.host2] [] = inl OSError.
Proof.
  pose proof (process_files_concat Sample.float_plain Inputs.fs2 Inputs.t100
                [Inputs.host1; Inputs.host2]) as H.
  destruct (process_files Sample.float_plain Inputs.fs2 Inputs.t100
              [Inputs.host1; Inputs.host2] []) as [e | all].
  - destruct H as [-> _]. reflexivity.
  - destruct H as [Hall _]. exfalso.
    apply (Hall Inputs.host1); [now left | reflexivity].
Defined.

Lemma run_outcomes_witness :
  main Sample.float_plain Inputs.fs2 (Inputs.args_of Inputs.t100 None)
    [Inputs.host1; Inputs.host2] = Raised OSError.
Proof.
  assert (Hnone : Inputs.fs2 Inputs.host1 = None) by reflexivity.
  assert (Hin : In Inputs.host1 [Inputs.host1; Inputs.host2]) by now left.
  destruct (run_outcomes Sample.float_plain Inputs.fs2
              (Inputs.args_of Inputs.t100 None) [Inputs.host1; Inputs.host2])
    as [[Hnil _] | [[_ Hmain] | [(_ & Hall & _) | [(Hall & _) | (Hall & _)]]]].
  - discriminate Hnil.
  - exact Hmain.
  - now destruct (Hall _ Hin).
  - now destruct (Hall _ Hin).
  - now destruct (Hall _ Hin).
Defined.
